(** * seleniumwire/server.py: the [MitmProxy] orchestrator

    A shallow embedding of [src/seleniumwire/server.py].  Python values that
    travel through the option dictionaries are a small sum type, dictionaries
    are finite maps keyed by strings, and the constructor and [shutdown] run
    in a monad that threads the log of calls made to the collaborators
    (storage, certificate extraction, the mitmproxy master) and can raise. *)

From Stdlib Require Import ZArith String Ascii.
From stdpp Require Import base option list strings gmap fin_maps.

Local Open Scope string_scope.

(** ** Python values and dictionaries *)

(** The values an option dictionary carries. *)
Inductive pyval : Type :=
| PyNone
| PyBool (b : bool)
| PyInt (n : Z)
| PyStr (s : string)
| PyList (l : list string).

#[global] Instance pyval_eq_dec : EqDecision pyval.
Proof. solve_decision. Defined.

(** Python's truth value of an object: [if v:]. *)
Definition truthy (v : pyval) : bool :=
  match v with
  | PyNone => false
  | PyBool b => b
  | PyInt n => negb (n =? 0)%Z
  | PyStr s => negb (String.eqb s "")
  | PyList l => match l with [] => false | _ :: _ => true end
  end.

(** [d.get(k, dflt)] *)
Definition py_get (d : gmap string pyval) (k : string) (dflt : pyval) : pyval :=
  default dflt (d !! k).

(** [k.startswith(p)] *)
Definition startswith (p k : string) : bool := String.prefix p k.

(** [k[n:]] *)
Fixpoint slice_from (n : nat) (k : string) : string :=
  match n, k with
  | O, _ => k
  | S _, EmptyString => EmptyString
  | S n', String _ k' => slice_from n' k'
  end.

(** A field of a parsed proxy URL: a [str], or [None]. *)
Definition field := option string.

(** ['{}'.format(f)] for such a field. *)
Definition fmt (f : field) : string := default "None" f.

Definition field_truthy (f : field) : bool :=
  match f with
  | None => false
  | Some s => negb (String.eqb s "")
  end.

(** ** Exceptions and results *)

Inductive exn : Type :=
| ValueError (msg : string)
| TypeError
| Raised (name : string).

Inductive result (A : Type) : Type :=
| Ok (a : A)
| Err (e : exn).
Arguments Ok {A} a.
Arguments Err {A} e.

(** ** The upstream proxy descriptors *)

(** The named tuple [get_upstream_proxy] builds per scheme; the resolver
    unpacks it as [scheme, username, password, hostport] and reads its
    [hostport] attribute. *)
Record ProxyConf : Type := {
  scheme : field;
  username : field;
  password : field;
  hostport : field
}.

(** The dictionary [get_upstream_proxy] returns, read only through
    [.get('http')], [.get('https')], [.get('custom_authorization')] and
    [.get('no_proxy')]; a missing key and a [None] value read the same. *)
Record ProxyConfig : Type := {
  pc_http : option ProxyConf;
  pc_https : option ProxyConf;
  pc_custom_authorization : pyval;
  pc_no_proxy : pyval
}.

Definition conflict_msg : string :=
  "Different settings for http and https proxy servers not supported".

(** Lines 94-107 of [_get_upstream_proxy_args]: the choice of [conf].  A
    four-field tuple is always truthy, so [if http_proxy] tests presence. *)
Definition select_conf (pc : ProxyConfig) : result (option ProxyConf) :=
  match pc_http pc, pc_https pc with
  | Some http_proxy, Some https_proxy =>
      if bool_decide (hostport http_proxy ≠ hostport https_proxy)
      then Err (ValueError conflict_msg)
      else Ok (Some https_proxy)
  | Some http_proxy, None => Ok (Some http_proxy)
  | None, Some https_proxy => Ok (Some https_proxy)
  | None, None => Ok None
  end.

(** [d[k] = v] guarded by [if c:]. *)
Definition set_if (c : bool) (k : string) (v : pyval)
    (d : gmap string pyval) : gmap string pyval :=
  if c then <[k := v]> d else d.

(** Lines 109-129: the engine fields derived from [conf]. *)
Definition conf_args (pc : ProxyConfig) (conf : option ProxyConf)
    : gmap string pyval :=
  match conf with
  | None => ∅
  | Some c =>
      let args := <["mode" :=
        PyStr ("upstream:" ++ fmt (scheme c) ++ "://" ++ fmt (hostport c))]> ∅ in
      let args := set_if (field_truthy (username c)) "upstream_auth"
        (PyStr (fmt (username c) ++ ":" ++ fmt (password c))) args in
      let custom_auth := pc_custom_authorization pc in
      let args := set_if (truthy custom_auth) "upstream_custom_auth"
        custom_auth args in
      let no_proxy := pc_no_proxy pc in
      set_if (truthy no_proxy) "no_proxy" no_proxy args
  end.

(** The body of [_get_upstream_proxy_args] once [proxy_config] is known. *)
Definition upstream_proxy_args (pc : ProxyConfig)
    : result (gmap string pyval) :=
  match select_conf pc with
  | Ok conf => Ok (conf_args pc conf)
  | Err e => Err e
  end.

(** ** Keyword arguments of [mitmproxy_opts.update] *)

(** Unpacking [**extra] into a call that already has the keywords [kw]:
    a repeated keyword raises [TypeError]. *)
Definition dict_merge (kw extra : gmap string pyval)
    : result (gmap string pyval) :=
  if decide (kw ##ₘ extra) then Ok (kw ∪ extra) else Err TypeError.

Definition strip_mitm (kv : string * pyval) : option (string * pyval) :=
  if startswith "mitm_" kv.1 then Some (slice_from 5 kv.1, kv.2) else None.

(** [{k[5:]: v for k, v in options.items() if k.startswith('mitm_')}] *)
Definition passthrough (options : gmap string pyval) : gmap string pyval :=
  list_to_map (omap strip_mitm (map_to_list options)).

Definition DEFAULT_SSL_INSECURE : pyval := PyBool true.
Definition DEFAULT_STREAM_WEBSOCKETS : pyval := PyBool true.
Definition DEFAULT_SUPPRESS_CONNECTION_ERRORS : pyval := PyBool true.

(** The keywords written out in the call, lines 51-56. *)
Definition explicit_kwargs (home_dir host : string) (port : Z)
    (options : gmap string pyval) : gmap string pyval :=
  <["suppress_connection_errors" :=
      py_get options "suppress_connection_errors"
        DEFAULT_SUPPRESS_CONNECTION_ERRORS]>
  (<["stream_websockets" := DEFAULT_STREAM_WEBSOCKETS]>
  (<["ssl_insecure" := py_get options "verify_ssl" DEFAULT_SSL_INSECURE]>
  (<["listen_port" := PyInt port]>
  (<["listen_host" := PyStr host]>
  (<["confdir" := PyStr home_dir]> ∅))))).

(** Lines 50-60: all keywords of the call, given the upstream fields. *)
Definition engine_kwargs (home_dir host : string) (port : Z)
    (options upstream : gmap string pyval) : result (gmap string pyval) :=
  match dict_merge (explicit_kwargs home_dir host port options) upstream with
  | Ok kw => dict_merge kw (passthrough options)
  | Err e => Err e
  end.

(** ** Calls to the collaborators *)

Record StorageArgs : Type := {
  memory_only : bool;
  base_dir : pyval;
  maxsize : pyval
}.

Inductive addon : Type :=
| DefaultAddons
| SendToLogger
| InterceptRequestHandler.

(** One entry per call into code that lives outside this module. *)
Inductive event : Type :=
| StorageCreate (args : StorageArgs)
| ExtractCertAndKey (home_dir : string)
| NewRequestModifier
| NewEventLoop
| SetEventLoop
| NewOptions
| NewMaster
| AddonsAdd (a : addon)
| GetUpstreamProxy
| OptionsUpdate (kw : gmap string pyval)
| NewProxyServer
| RunLoop
| MasterShutdown
| StorageCleanup.

Definition trace : Type := list event.

(** What the collaborators do: whether a call raises, given everything that
    was called before it, and what the two calls whose value the
    constructor uses return. *)
Record Env : Type := {
  raises : trace → event → option exn;
  storage_home_dir : StorageArgs → string;
  get_upstream_proxy : gmap string pyval → ProxyConfig
}.

Definition is_cleanup (ev : event) : bool :=
  match ev with StorageCleanup => true | _ => false end.

(** How many times [cleanup()] was called. *)
Fixpoint cleanup_calls (tr : trace) : nat :=
  match tr with
  | [] => 0
  | ev :: tr' => (if is_cleanup ev then 1 else 0) + cleanup_calls tr'
  end.

Definition added_addon (ev : event) : option addon :=
  match ev with AddonsAdd a => Some a | _ => None end.

(** The addons registered with the master so far, oldest first. *)
Definition registered_addons (tr : trace) : list addon := omap added_addon tr.

Definition is_engine_start (ev : event) : bool :=
  match ev with OptionsUpdate _ | NewProxyServer | RunLoop => true | _ => false end.

(** Whether the engine options were set, or a proxy server made or run. *)
Definition engine_started (tr : trace) : bool := existsb is_engine_start tr.

(** ** The monad: a call log and exceptions *)

Definition M (A : Type) : Type := trace → result A * trace.

Definition ret {A} (a : A) : M A := λ tr, (Ok a, tr).

Definition bind {A B} (m : M A) (k : A → M B) : M B :=
  λ tr, match m tr with
        | (Ok a, tr') => k a tr'
        | (Err e, tr') => (Err e, tr')
        end.

Definition raise {A} (e : exn) : M A := λ tr, (Err e, tr).

Definition lift {A} (r : result A) : M A := λ tr, (r, tr).

(** A call is logged, then returns or raises as the collaborator decides. *)
Definition call (env : Env) (ev : event) : M unit :=
  λ tr, match raises env tr ev with
        | None => (Ok tt, (tr ++ [ev])%list)
        | Some e => (Err e, (tr ++ [ev])%list)
        end.

Notation "'do' x <- m ; k" := (bind m (λ x, k))
  (at level 10, x name, m at level 100, k at level 200).
Notation "m ;; k" := (bind m (λ _, k))
  (at level 100, k at level 200, right associativity).

(** ** class MitmProxy *)

Module MitmProxy.

(** The attributes of an instance; [master_addons] and [master_options]
    stand for [self._master.addons] and the [Options] it was built on.
    [options] is the content of the dictionary at the time it was passed
    in: line 24 keeps a reference to the caller's dictionary, which
    [get_upstream_proxy] receives as well, so what that object holds later
    is in the hands of whoever shares it. *)
Record t : Type := {
  options : gmap string pyval;
  storage : string;
  scopes : list string;
  request_interceptor : option string;
  response_interceptor : option string;
  master_addons : list addon;
  master_options : gmap string pyval
}.

Definition _get_storage_args (options : gmap string pyval) : StorageArgs :=
  {| memory_only :=
       bool_decide (py_get options "request_storage" PyNone = PyStr "memory");
     base_dir := py_get options "request_storage_base_dir" PyNone;
     maxsize := py_get options "request_storage_max_size" PyNone |}.

Section WithEnv.
Context (env : Env).

Definition _get_upstream_proxy_args (options : gmap string pyval)
    : M (gmap string pyval) :=
  call env GetUpstreamProxy;;
  lift (upstream_proxy_args (get_upstream_proxy env options)).

(** Lines 27-48: storage, certificate, event loop, master and addons.
    Returns [self.storage.home_dir]. *)
Definition init_collaborators (options : gmap string pyval) : M string :=
  let storage_args := _get_storage_args options in
  call env (StorageCreate storage_args);;
  let home_dir := storage_home_dir env storage_args in
  call env (ExtractCertAndKey home_dir);;
  call env NewRequestModifier;;
  call env NewEventLoop;;
  call env SetEventLoop;;
  call env NewOptions;;
  call env NewMaster;;
  call env (AddonsAdd DefaultAddons);;
  call env (AddonsAdd SendToLogger);;
  call env (AddonsAdd InterceptRequestHandler);;
  ret home_dir.

(** Lines 50-65: engine options, proxy server, scopes. *)
Definition init_engine (host : string) (port : Z)
    (options : gmap string pyval) (home_dir : string) : M t :=
  do upstream <- _get_upstream_proxy_args options;
  do kw <- lift (engine_kwargs home_dir host port options upstream);
  call env (OptionsUpdate kw);;
  call env NewProxyServer;;
  ret {| options := options;
         storage := home_dir;
         scopes := if truthy (py_get options "disable_capture" (PyBool false))
                   then ["$^"] else [];
         request_interceptor := None;
         response_interceptor := None;
         master_addons :=
           [DefaultAddons; SendToLogger; InterceptRequestHandler];
         master_options := kw |}.

Definition __init__ (host : string) (port : Z)
    (options : gmap string pyval) : M t :=
  do home_dir <- init_collaborators options;
  init_engine host port options home_dir.


Definition shutdown (self : t) : M unit :=
  call env MasterShutdown;;
  call env StorageCleanup.

End WithEnv.

End MitmProxy.

(** ** Sample collaborators and inputs *)

(** Collaborators that never raise, with a fixed upstream configuration. *)
Definition quiet_env (pc : ProxyConfig) : Env :=
  {| raises := λ _ _, None;
     storage_home_dir := λ _, "/tmp/.seleniumwire/storage";
     get_upstream_proxy := λ _, pc |}.

(** As [quiet_env], but certificate extraction raises. *)
Definition cert_fail_env (pc : ProxyConfig) : Env :=
  {| raises := λ _ ev, match ev with
                       | ExtractCertAndKey _ => Some (Raised "OSError")
                       | _ => None
                       end;
     storage_home_dir := λ _, "/tmp/.seleniumwire/storage";
     get_upstream_proxy := λ _, pc |}.

Definition no_upstream : ProxyConfig :=
  {| pc_http := None; pc_https := None;
     pc_custom_authorization := PyNone; pc_no_proxy := PyNone |}.

Definition mk_conf (s u p h : string) : ProxyConf :=
  {| scheme := Some s; username := Some u; password := Some p;
     hostport := Some h |}.

(** [http_proxy=("http","u","p","proxy.local:8080")] with
    [https_proxy=("https","u","p","proxy.local:9090")]. *)
Definition conflicting_upstream : ProxyConfig :=
  {| pc_http := Some (mk_conf "http" "u" "p" "proxy.local:8080");
     pc_https := Some (mk_conf "https" "u" "p" "proxy.local:9090");
     pc_custom_authorization := PyNone; pc_no_proxy := PyNone |}.

Definition https_only (c : ProxyConf) (custom_auth no_proxy : pyval)
    : ProxyConfig :=
  {| pc_http := None; pc_https := Some c;
     pc_custom_authorization := custom_auth; pc_no_proxy := no_proxy |}.

Definition http_only (c : ProxyConf) (custom_auth no_proxy : pyval)
    : ProxyConfig :=
  {| pc_http := Some c; pc_https := None;
     pc_custom_authorization := custom_auth; pc_no_proxy := no_proxy |}.

Definition both (h s : ProxyConf) (custom_auth no_proxy : pyval)
    : ProxyConfig :=
  {| pc_http := Some h; pc_https := Some s;
     pc_custom_authorization := custom_auth; pc_no_proxy := no_proxy |}.

Definition neither (custom_auth no_proxy : pyval) : ProxyConfig :=
  {| pc_http := None; pc_https := None;
     pc_custom_authorization := custom_auth; pc_no_proxy := no_proxy |}.

Definition with_password (p : field) (c : ProxyConf) : ProxyConf :=
  {| scheme := scheme c; username := username c; password := p;
     hostport := hostport c |}.

(** The mode string of a descriptor. *)
Definition mode_of (c : ProxyConf) : pyval :=
  PyStr ("upstream:" ++ fmt (scheme c) ++ "://" ++ fmt (hostport c)).

(** The authentication string of a descriptor. *)
Definition auth_of (c : ProxyConf) : pyval :=
  PyStr (fmt (username c) ++ ":" ++ fmt (password c)).

Definition explicit_keys : list string :=
  ["confdir"; "listen_host"; "listen_port"; "ssl_insecure";
   "stream_websockets"; "suppress_connection_errors"].

Definition upstream_keys : list string :=
  ["mode"; "upstream_auth"; "upstream_custom_auth"; "no_proxy"].

(** [shutdown()] called twice in sequence. *)
Definition shutdown_twice (env : Env) (self : MitmProxy.t) : M unit :=
  MitmProxy.shutdown env self;; MitmProxy.shutdown env self.

(** Construction followed by two calls of [shutdown()]. *)
Definition construct_then_shutdown_twice (env : Env) (host : string)
    (port : Z) (options : gmap string pyval) : M unit :=
  do self <- MitmProxy.__init__ env host port options;
  shutdown_twice env self.

(** Every event of the log of [m] beyond the log it started from
    satisfies [P]. *)
Definition emits {A} (P : event → Prop) (m : M A) : Prop :=
  ∀ tr, ∃ evs, (m tr).2 = (tr ++ evs)%list ∧ Forall P evs.

(** *** The statements that do not hold of the code, as they are written *)

(** A construction that fails once the storage exists has called
    [cleanup()] by the time the error reaches the caller. *)
Definition cleans_up_on_failure (env : Env) (host : string) (port : Z)
    (options : gmap string pyval) : Prop :=
  ∀ e tr,
    raises env [] (StorageCreate (MitmProxy._get_storage_args options)) = None →
    MitmProxy.__init__ env host port options [] = (Err e, tr) →
    (1 ≤ cleanup_calls tr)%nat.

(** Two calls of [shutdown()] on a constructed instance return and call
    [cleanup()] once. *)
Definition shutdown_twice_cleans_once (env : Env) (host : string) (port : Z)
    (options : gmap string pyval) : Prop :=
  ∃ tr, construct_then_shutdown_twice env host port options [] = (Ok tt, tr)
        ∧ cleanup_calls tr = 1.

(** Every prefixed option reaches the engine options under its stripped
    key, whatever other keys are there. *)
Definition passthrough_always_wins (env : Env) (host : string) (port : Z)
    (options : gmap string pyval) : Prop :=
  ∀ k v, startswith "mitm_" k = true → options !! k = Some v →
    ∃ self tr, MitmProxy.__init__ env host port options [] = (Ok self, tr)
               ∧ MitmProxy.master_options self !! slice_from 5 k = Some v.

(** No addon is registered when the conflict error is raised. *)
Definition no_addons_on_conflict (env : Env) (host : string) (port : Z)
    (options : gmap string pyval) : Prop :=
  ∀ tr,
    MitmProxy.__init__ env host port options []
      = (Err (ValueError conflict_msg), tr) →
    registered_addons tr = [].

(** ** class SendToLogger *)

(** [s.replace(old, new)] for a non-empty [old]: while [skip] characters of
    a match remain they are dropped; otherwise a match of [old] at the
    current position is replaced and the scan resumes behind it. *)
Fixpoint replace_go (old new : string) (skip : nat) (s : string) : string :=
  match s with
  | EmptyString => EmptyString
  | String c s' =>
      match skip with
      | S n => replace_go old new n s'
      | O =>
          if startswith old s
          then new ++ replace_go old new (String.length old - 1) s'
          else String c (replace_go old new 0 s')
      end
  end.

(** With an empty [old], Python puts [new] before every character and at
    the end. *)
Fixpoint replace_empty (new s : string) : string :=
  match s with
  | EmptyString => new
  | String c s' => new ++ String c (replace_empty new s')
  end.

Definition py_replace (old new s : string) : string :=
  match old with
  | EmptyString => replace_empty new s
  | String _ _ => replace_go old new 0 s
  end.

(** [old] occurs somewhere in [s]. *)
Definition occurs (old s : string) : Prop :=
  ∃ a b, s = a ++ old ++ b.

(** [old in s] *)
Fixpoint contains (old s : string) : bool :=
  match s with
  | EmptyString => startswith old s
  | String _ s' => startswith old s || contains old s'
  end.

Module SendToLogger.

(** A mitmproxy log entry, as far as [log] reads it. *)
Record entry : Type := {
  level : string;
  msg : string
}.

(** The name [log] looks up on the logger. *)
Definition method_name (e : entry) : string :=
  py_replace "warn" "warning" (level e).

(** [log]: the logger attribute that is called, and its argument.
    [has_attr] tells which names the logger has; [getattr] with a default
    falls back to [logger.info] for the others. *)
Definition log (has_attr : string → bool) (e : entry) : string * string :=
  ((if has_attr (method_name e) then method_name e else "info"), msg e).

End SendToLogger.

(** Public attributes of a [logging.Logger], for the examples: its logging
    methods first, then its other methods and its data attributes.  Names
    that start with an underscore are left out. *)
Definition logger_attributes : list string :=
  ["debug"; "info"; "warning"; "warn"; "error"; "exception"; "critical";
   "fatal"; "log";
   "setLevel"; "isEnabledFor"; "getEffectiveLevel"; "getChild";
   "findCaller"; "makeRecord"; "handle"; "addHandler"; "removeHandler";
   "hasHandlers"; "callHandlers"; "addFilter"; "removeFilter"; "filter";
   "name"; "level"; "parent"; "propagate"; "handlers"; "disabled";
   "filters"; "manager"; "root"].

Definition std_has_attr (name : string) : bool :=
  bool_decide (name ∈ logger_attributes).

(** No pass-through option repeats a keyword of the call or a field of
    [upstream]. *)
Definition passthrough_free (options upstream : gmap string pyval) : Prop :=
  ∀ k : string, is_Some (options !! ("mitm_" ++ k)) →
    (k ∉ explicit_keys) ∧ upstream !! k = None.

(** ** The order of the calls *)


(** The last call of the log [tr] is the one that raised [e]. *)
Definition raised_last (env : Env) (e : exn) (tr : trace) : Prop :=
  ∃ tr1 ev, tr = (tr1 ++ [ev])%list ∧ raises env tr1 ev = Some e.

(** No collaborator raises, whatever was called before. *)
Definition never_raises (env : Env) : Prop :=
  ∀ tr ev, raises env tr ev = None.

(** An instance as the constructor leaves it for empty options. *)
Definition plain_instance : MitmProxy.t :=
  {| MitmProxy.options := ∅;
     MitmProxy.storage := "/tmp/.seleniumwire/storage";
     MitmProxy.scopes := [];
     MitmProxy.request_interceptor := None;
     MitmProxy.response_interceptor := None;
     MitmProxy.master_addons :=
       [DefaultAddons; SendToLogger; InterceptRequestHandler];
     MitmProxy.master_options :=
       explicit_kwargs "/tmp/.seleniumwire/storage" "127.0.0.1" 8080 ∅ |}.

(** As [quiet_env], but the master's [shutdown] raises. *)
Definition shutdown_fail_env : Env :=
  {| raises := λ _ ev, match ev with
                       | MasterShutdown => Some (Raised "RuntimeError")
                       | _ => None
                       end;
     storage_home_dir := λ _, "/tmp/.seleniumwire/storage";
     get_upstream_proxy := λ _, no_upstream |}.

(** As [quiet_env], but [storage.create] raises. *)
Definition storage_fail_env : Env :=
  {| raises := λ _ ev, match ev with
                       | StorageCreate _ => Some (Raised "OSError")
                       | _ => None
                       end;
     storage_home_dir := λ _, "/tmp/.seleniumwire/storage";
     get_upstream_proxy := λ _, no_upstream |}.

(** * Properties *)

(** ** Strings and dictionaries *)

Lemma append_String (a : ascii) (s1 s2 : string) :
  String a s1 ++ s2 = String a (s1 ++ s2).
Proof. reflexivity. Qed.

Lemma startswith_split (p k : string) :
  startswith p k = true → k = p ++ slice_from (String.length p) k.
Proof.
  unfold startswith. revert k.
  induction p as [|a p IH]; intros k H; [done|].
  destruct k as [|b k]; [done|]. simpl in *.
  destruct (Ascii.ascii_dec a b) as [->|]; [|done].
  rewrite append_String. f_equal. by apply IH.
Qed.

Lemma startswith_app (p k : string) : startswith p (p ++ k) = true.
Proof.
  unfold startswith. induction p as [|a p IH]; [by destruct k|].
  rewrite append_String. simpl. by destruct (Ascii.ascii_dec a a).
Qed.

Lemma slice_from_app (p k : string) : slice_from (String.length p) (p ++ k) = k.
Proof. induction p as [|a p IH]; [done|]. by rewrite append_String. Qed.

Lemma slice_mitm (k : string) : slice_from 5 ("mitm_" ++ k) = k.
Proof. exact (slice_from_app "mitm_" k). Qed.

Lemma startswith_mitm (k : string) :
  startswith "mitm_" k = true → k = "mitm_" ++ slice_from 5 k.
Proof. exact (startswith_split "mitm_" k). Qed.

Lemma strip_mitm_Some (kv : string * pyval) (k : string) (v : pyval) :
  strip_mitm kv = Some (k, v) ↔ kv = ("mitm_" ++ k, v).
Proof.
  unfold strip_mitm. destruct kv as [k0 v0]. cbn [fst snd]. split.
  - destruct (startswith "mitm_" k0) eqn:Hp; [|done].
    intros [= <- <-]. f_equal. by apply startswith_mitm.
  - intros [= -> ->]. by rewrite (startswith_app "mitm_"), slice_mitm.
Qed.

Lemma passthrough_keys_NoDup (l : list (string * pyval)) :
  NoDup l.*1 → NoDup (omap strip_mitm l).*1.
Proof.
  induction l as [|[k0 v0] l IH]; simpl; [constructor|].
  intros [Hk Hl]%NoDup_cons. specialize (IH Hl).
  destruct (strip_mitm (k0, v0)) as [[k v]|] eqn:Hs; [|done].
  simpl. apply NoDup_cons. split; [|done].
  apply strip_mitm_Some in Hs as [= -> ->].
  intros ([k' v'] & -> & Hin)%list_elem_of_fmap.
  apply list_elem_of_omap in Hin as (kv & Hkv & Hst).
  apply strip_mitm_Some in Hst as ->.
  apply Hk, list_elem_of_fmap. by exists ("mitm_" ++ k', v').
Qed.

(** The comprehension maps [k] to whatever the options hold under
    ['mitm_' + k]. *)
Lemma passthrough_lookup (options : gmap string pyval) (k : string) :
  passthrough options !! k = options !! ("mitm_" ++ k).
Proof.
  unfold passthrough. apply option_eq. intros v.
  rewrite <- elem_of_list_to_map
    by apply passthrough_keys_NoDup, NoDup_fst_map_to_list.
  rewrite list_elem_of_omap. split.
  - intros (kv & Hin & ->%strip_mitm_Some). by apply elem_of_map_to_list.
  - intros Hl. exists ("mitm_" ++ k, v). split.
    + by apply elem_of_map_to_list.
    + by apply strip_mitm_Some.
Qed.

Lemma dict_merge_Ok (kw extra m : gmap string pyval) :
  dict_merge kw extra = Ok m ↔ kw ##ₘ extra ∧ m = kw ∪ extra.
Proof.
  unfold dict_merge. destruct (decide (kw ##ₘ extra)); split.
  - by intros [= <-].
  - by intros [_ ->].
  - done.
  - by intros [? _].
Qed.

Lemma dict_merge_collision (kw extra : gmap string pyval) (k : string) :
  is_Some (kw !! k) → is_Some (extra !! k) → dict_merge kw extra = Err TypeError.
Proof.
  intros [x Hx] [y Hy]. unfold dict_merge.
  destruct (decide (kw ##ₘ extra)) as [Hd|]; [|done].
  rewrite map_disjoint_spec in Hd. by destruct (Hd k x y).
Qed.

Lemma dict_merge_Err (kw extra : gmap string pyval) (e : exn) :
  dict_merge kw extra = Err e → e = TypeError.
Proof. unfold dict_merge. destruct (decide _); [done|]. by intros [= <-]. Qed.

Lemma explicit_kwargs_keys home host port options (k : string) :
  is_Some (explicit_kwargs home host port options !! k) ↔ k ∈ explicit_keys.
Proof.
  unfold explicit_kwargs, explicit_keys.
  rewrite !lookup_insert_is_Some', lookup_empty, is_Some_alt.
  rewrite !elem_of_cons, elem_of_nil. intuition congruence.
Qed.

Lemma set_if_lookup c k v (d : gmap string pyval) (j : string) :
  set_if c k v d !! j = if c && bool_decide (k = j) then Some v else d !! j.
Proof.
  unfold set_if. destruct c; [|done]. simpl.
  rewrite lookup_insert. by repeat case_decide; case_bool_decide.
Qed.

Lemma set_if_is_Some c k v (d : gmap string pyval) (j : string) :
  is_Some (set_if c k v d !! j) → j = k ∨ is_Some (d !! j).
Proof.
  rewrite set_if_lookup. destruct c; simpl; [|by right].
  case_bool_decide; [by left|by right].
Qed.

Lemma conf_args_keys pc conf (k : string) :
  is_Some (conf_args pc conf !! k) → k ∈ upstream_keys.
Proof.
  unfold conf_args, upstream_keys. destruct conf as [c|].
  - intros [->|[->|[->|H]%set_if_is_Some]%set_if_is_Some]%set_if_is_Some;
      [set_solver..|].
    apply lookup_insert_is_Some in H as [<-|[_ H]]; [set_solver|].
    rewrite lookup_empty in H. by destruct H.
  - rewrite lookup_empty. by intros [? ?].
Qed.

(** ** The upstream proxy resolver *)

Lemma conf_args_mode pc (c : ProxyConf) :
  conf_args pc (Some c) !! "mode" = Some (mode_of c).
Proof. unfold conf_args. by rewrite !set_if_lookup, !andb_false_r. Qed.

Lemma conf_args_upstream_auth pc (c : ProxyConf) :
  conf_args pc (Some c) !! "upstream_auth"
  = if field_truthy (username c) then Some (auth_of c) else None.
Proof.
  unfold conf_args. rewrite !set_if_lookup, !andb_false_r.
  by destruct (field_truthy (username c)).
Qed.

Lemma conf_args_custom_auth pc (c : ProxyConf) :
  conf_args pc (Some c) !! "upstream_custom_auth"
  = if truthy (pc_custom_authorization pc)
    then Some (pc_custom_authorization pc) else None.
Proof.
  unfold conf_args. rewrite !set_if_lookup, !andb_false_r.
  by destruct (truthy (pc_custom_authorization pc)).
Qed.

Lemma conf_args_no_proxy pc (c : ProxyConf) :
  conf_args pc (Some c) !! "no_proxy"
  = if truthy (pc_no_proxy pc) then Some (pc_no_proxy pc) else None.
Proof.
  unfold conf_args. rewrite !set_if_lookup.
  by destruct (truthy (pc_no_proxy pc)), (truthy (pc_custom_authorization pc)),
    (field_truthy (username c)).
Qed.

Lemma select_conf_conflict pc (h s : ProxyConf) :
  pc_http pc = Some h → pc_https pc = Some s → hostport h ≠ hostport s →
  select_conf pc = Err (ValueError conflict_msg).
Proof.
  intros Hh Hs Hne. unfold select_conf. rewrite Hh, Hs.
  by rewrite bool_decide_eq_true_2.
Qed.

Lemma upstream_proxy_args_conflict pc (h s : ProxyConf) :
  pc_http pc = Some h → pc_https pc = Some s → hostport h ≠ hostport s →
  upstream_proxy_args pc = Err (ValueError conflict_msg).
Proof.
  intros. unfold upstream_proxy_args.
  by erewrite select_conf_conflict.
Qed.

Lemma upstream_proxy_args_Ok pc args :
  upstream_proxy_args pc = Ok args →
  ∃ conf, select_conf pc = Ok conf ∧ args = conf_args pc conf.
Proof.
  unfold upstream_proxy_args. destruct (select_conf pc) as [conf|]; [|done].
  intros [= <-]. by exists conf.
Qed.

(** C7: when both descriptors are present with the same [hostport],
    resolution returns fields; [mode] is built from the scheme and the
    [hostport] of the HTTPS descriptor, [upstream_auth] (produced when its
    username is truthy) from its username and password; the custom
    authorization and the no-proxy list are the ones of the configuration.
    The whole result is the one the HTTPS descriptor alone gives. *)
Theorem C7_equal_hostport_resolves_to_https
    (http_proxy https_proxy : ProxyConf) (custom_auth no_proxy : pyval) :
  hostport http_proxy = hostport https_proxy →
  ∃ args,
    upstream_proxy_args (both http_proxy https_proxy custom_auth no_proxy)
      = Ok args
    ∧ args !! "mode"
      = Some (PyStr ("upstream:" ++ fmt (scheme https_proxy) ++ "://"
                     ++ fmt (hostport https_proxy)))
    ∧ args !! "upstream_auth"
      = (if field_truthy (username https_proxy)
         then Some (PyStr (fmt (username https_proxy) ++ ":"
                           ++ fmt (password https_proxy)))
         else None)
    ∧ args !! "upstream_custom_auth"
      = (if truthy custom_auth then Some custom_auth else None)
    ∧ args !! "no_proxy" = (if truthy no_proxy then Some no_proxy else None)
    ∧ upstream_proxy_args (https_only https_proxy custom_auth no_proxy)
      = Ok args.
Proof.
  intros Heq. eexists. split.
  - unfold upstream_proxy_args, select_conf, both. simpl.
    by rewrite bool_decide_eq_false_2 by (by intros ?).
  - split; [apply conf_args_mode|].
    split; [apply conf_args_upstream_auth|].
    split; [apply (conf_args_custom_auth (both _ _ _ _))|].
    split; [apply (conf_args_no_proxy (both _ _ _ _))|].
    reflexivity.
Qed.

Lemma C7_equal_hostport_resolves_to_https_witness :
  ∃ args,
    upstream_proxy_args
      (both (mk_conf "http" "alice" "pw1" "proxy.local:8080")
            (mk_conf "https" "bob" "pw2" "proxy.local:8080")
            (PyStr "Bearer x") (PyList ["localhost"])) = Ok args
    ∧ args !! "mode" = Some (PyStr "upstream:https://proxy.local:8080")
    ∧ args !! "upstream_auth" = Some (PyStr "bob:pw2").
Proof.
  destruct (C7_equal_hostport_resolves_to_https
              (mk_conf "http" "alice" "pw1" "proxy.local:8080")
              (mk_conf "https" "bob" "pw2" "proxy.local:8080")
              (PyStr "Bearer x") (PyList ["localhost"]) eq_refl)
    as (args & Hargs & Hmode & Hauth & _).
  exists args. split; [exact Hargs|]. split; [exact Hmode|exact Hauth].
Defined.

(** C8: a lone descriptor, HTTP or HTTPS, is the one the fields are built
    from, and it gives the same fields whichever scheme it was configured
    for; with no descriptor the resolver returns the empty dictionary, so
    none of [mode], [upstream_auth], [upstream_custom_auth] and [no_proxy]
    is set, whatever the configuration holds besides. *)
Theorem C8_single_descriptor_or_direct
    (conf : ProxyConf) (custom_auth no_proxy : pyval) :
  (∃ args,
     upstream_proxy_args (http_only conf custom_auth no_proxy) = Ok args
     ∧ upstream_proxy_args (https_only conf custom_auth no_proxy) = Ok args
     ∧ args !! "mode" = Some (mode_of conf)
     ∧ args !! "upstream_auth"
       = (if field_truthy (username conf) then Some (auth_of conf) else None)
     ∧ args !! "upstream_custom_auth"
       = (if truthy custom_auth then Some custom_auth else None)
     ∧ args !! "no_proxy" = (if truthy no_proxy then Some no_proxy else None))
  ∧ (∃ args,
       upstream_proxy_args (neither custom_auth no_proxy) = Ok args
       ∧ args = ∅
       ∧ ∀ k : string, args !! k = None).
Proof.
  split.
  - eexists. split; [reflexivity|]. split; [reflexivity|].
    split; [apply conf_args_mode|].
    split; [apply conf_args_upstream_auth|].
    split; [apply (conf_args_custom_auth (http_only _ _ _))|].
    apply (conf_args_no_proxy (http_only _ _ _)).
  - exists ∅. split; [reflexivity|]. split; [reflexivity|].
    intros k. apply lookup_empty.
Qed.

(** C10: when the descriptor the resolver settles on has the empty string
    as username, resolution succeeds with a [mode] but without
    [upstream_auth], whatever the password is; a username that is [None]
    gives the same, and [upstream_auth] is there exactly when the username
    is truthy. *)
Theorem C10_empty_username_unauthenticated
    (pc : ProxyConfig) (conf : ProxyConf) :
  select_conf pc = Ok (Some conf) →
  username conf = Some "" →
  ∃ args,
    upstream_proxy_args pc = Ok args
    ∧ args !! "upstream_auth" = None
    ∧ args !! "mode" = Some (mode_of conf)
    ∧ (∀ p, conf_args pc (Some (with_password p conf)) = args).
Proof.
  intros Hsel Hu. exists (conf_args pc (Some conf)).
  split; [unfold upstream_proxy_args; by rewrite Hsel|].
  split; [by rewrite conf_args_upstream_auth, Hu|].
  split; [apply conf_args_mode|].
  intros p. unfold conf_args, with_password. simpl. by rewrite Hu.
Qed.

Lemma C10_empty_username_unauthenticated_witness :
  ∃ args,
    upstream_proxy_args
      (https_only (mk_conf "https" "" "secret" "proxy.local:8080") PyNone PyNone)
      = Ok args
    ∧ args !! "upstream_auth" = None.
Proof.
  destruct (C10_empty_username_unauthenticated
              (https_only (mk_conf "https" "" "secret" "proxy.local:8080")
                 PyNone PyNone)
              (mk_conf "https" "" "secret" "proxy.local:8080")
              eq_refl eq_refl)
    as (args & Hargs & Hauth & _).
  exists args. split; [exact Hargs|exact Hauth].
Defined.

(** The username decides by its truth value: [None] and [''] give no
    [upstream_auth], any other string gives one. *)
Lemma upstream_auth_iff_truthy pc (c : ProxyConf) :
  is_Some (conf_args pc (Some c) !! "upstream_auth")
  ↔ ∃ u, username c = Some u ∧ u ≠ "".
Proof.
  rewrite conf_args_upstream_auth. unfold field_truthy.
  destruct (username c) as [u|].
  - destruct (String.eqb_spec u "") as [->|Hne]; simpl.
    + split; [by intros [? ?]|]. by intros (? & [= <-] & ?).
    + split; [by exists u|by eexists].
  - split; [by intros [? ?]|]. by intros (? & ? & ?).
Qed.

(** ** The call log *)

Local Open Scope list_scope.

Lemma bind_Ok_inv {A B} (m : M A) (k : A → M B) tr b tr' :
  bind m k tr = (Ok b, tr') →
  ∃ a tr1, m tr = (Ok a, tr1) ∧ k a tr1 = (Ok b, tr').
Proof.
  unfold bind. destruct (m tr) as [[a|e] tr1]; [|done].
  intros H. by exists a, tr1.
Qed.

Lemma bind_Ok {A B} (m : M A) (k : A → M B) tr a tr1 :
  m tr = (Ok a, tr1) → bind m k tr = k a tr1.
Proof. unfold bind. by intros ->. Qed.

Lemma bind_Err {A B} (m : M A) (k : A → M B) tr e tr1 :
  m tr = (Err e, tr1) → bind m k tr = (Err e, tr1).
Proof. unfold bind. by intros ->. Qed.

Lemma call_Ok_inv env ev tr u tr' :
  call env ev tr = (Ok u, tr') →
  raises env tr ev = None ∧ tr' = (tr ++ [ev])%list.
Proof. unfold call. destruct (raises env tr ev); [done|]. by intros [= _ <-]. Qed.

Lemma call_Ok env ev tr :
  raises env tr ev = None → call env ev tr = (Ok tt, (tr ++ [ev])%list).
Proof. unfold call. by intros ->. Qed.

Lemma lift_inv {A} (r : result A) tr r' tr' :
  lift r tr = (r', tr') → r' = r ∧ tr' = tr.
Proof. unfold lift. by intros [= <- <-]. Qed.

Lemma ret_inv {A} (a : A) tr r tr' :
  ret a tr = (r, tr') → r = Ok a ∧ tr' = tr.
Proof. unfold ret. by intros [= <- <-]. Qed.

(** Takes the hypotheses [m tr = (Ok _, _)] apart, one call at a time. *)
Ltac inv_run :=
  repeat match goal with
  | H : bind _ _ _ = (Ok _, _) |- _ =>
      let a := fresh "a" in let tr := fresh "tr" in
      let H1 := fresh "Hrun" in
      apply bind_Ok_inv in H as (a & tr & H1 & H)
  | H : call _ _ _ = (Ok _, _) |- _ => apply call_Ok_inv in H as [H ->]
  | H : lift _ _ = (_, _) |- _ => apply lift_inv in H as [H ->]
  | H : ret _ _ = (_, _) |- _ => apply ret_inv in H as [H ->]
  end.

Lemma emits_ret {A} P (a : A) : emits P (ret a).
Proof. intros tr. exists []. by rewrite app_nil_r. Qed.

Lemma emits_lift {A} P (r : result A) : emits P (lift r).
Proof. intros tr. exists []. by rewrite app_nil_r. Qed.

Lemma emits_call P env ev : P ev → emits P (call env ev).
Proof.
  intros HP tr. exists [ev]. unfold call.
  destruct (raises env tr ev); (split; [done|by repeat constructor]).
Qed.

Lemma emits_bind {A B} P (m : M A) (k : A → M B) :
  emits P m → (∀ a, emits P (k a)) → emits P (bind m k).
Proof.
  intros Hm Hk tr. unfold bind.
  destruct (Hm tr) as (evs & Heq & HP).
  destruct (m tr) as [[a|e] tr1]; simpl in Heq; subst tr1.
  - destruct (Hk a (tr ++ evs)%list) as (evs' & Heq' & HP').
    exists (evs ++ evs')%list. rewrite Heq', app_assoc.
    split; [done|by apply Forall_app].
  - by exists evs.
Qed.

Ltac emits_step :=
  first [ apply emits_ret | apply emits_lift
        | apply emits_call; done
        | apply emits_bind; [|intros ?] ].

Lemma cleanup_calls_app tr evs :
  cleanup_calls (tr ++ evs) = (cleanup_calls tr + cleanup_calls evs)%nat.
Proof. induction tr as [|ev tr IH]; simpl; [done|]. rewrite IH. lia. Qed.

Lemma cleanup_calls_none evs :
  Forall (λ ev, is_cleanup ev = false) evs → cleanup_calls evs = 0%nat.
Proof.
  induction 1 as [|ev evs Hev _ IH]; simpl; [done|]. by rewrite Hev, IH.
Qed.

(** The calls the constructor makes before it turns to the engine
    options, in order. *)
Definition collaborator_calls (env : Env) (options : gmap string pyval)
    : list event :=
  let storage_args := MitmProxy._get_storage_args options in
  [StorageCreate storage_args;
   ExtractCertAndKey (storage_home_dir env storage_args);
   NewRequestModifier; NewEventLoop; SetEventLoop; NewOptions; NewMaster;
   AddonsAdd DefaultAddons; AddonsAdd SendToLogger;
   AddonsAdd InterceptRequestHandler].

Lemma init_collaborators_Ok env options tr0 home tr :
  MitmProxy.init_collaborators env options tr0 = (Ok home, tr) →
  home = storage_home_dir env (MitmProxy._get_storage_args options)
  ∧ tr = (tr0 ++ collaborator_calls env options)%list.
Proof.
  unfold MitmProxy.init_collaborators. intros H. inv_run.
  split; [by injection H|]. unfold collaborator_calls.
  by rewrite <- !app_assoc.
Qed.

Lemma init_Ok_inv env host port options tr0 self tr :
  MitmProxy.__init__ env host port options tr0 = (Ok self, tr) →
  ∃ upstream,
    upstream_proxy_args (get_upstream_proxy env options) = Ok upstream
    ∧ engine_kwargs (MitmProxy.storage self) host port options upstream
      = Ok (MitmProxy.master_options self)
    ∧ MitmProxy.scopes self
      = (if truthy (py_get options "disable_capture" (PyBool false))
         then ["$^"] else []).
Proof.
  unfold MitmProxy.__init__. intros H.
  apply bind_Ok_inv in H as (home & tr1 & _ & H).
  unfold MitmProxy.init_engine, MitmProxy._get_upstream_proxy_args in H.
  inv_run. injection H as ->. simpl. eauto.
Qed.

Lemma init_conflict env host port options tr0 home tr1 (h s : ProxyConf) :
  pc_http (get_upstream_proxy env options) = Some h →
  pc_https (get_upstream_proxy env options) = Some s →
  hostport h ≠ hostport s →
  MitmProxy.init_collaborators env options tr0 = (Ok home, tr1) →
  raises env tr1 GetUpstreamProxy = None →
  MitmProxy.__init__ env host port options tr0
  = (Err (ValueError conflict_msg), (tr1 ++ [GetUpstreamProxy])%list).
Proof.
  intros Hh Hs Hne Hc Hg. unfold MitmProxy.__init__.
  rewrite (bind_Ok _ _ _ _ _ Hc).
  unfold MitmProxy.init_engine, MitmProxy._get_upstream_proxy_args.
  apply bind_Err. rewrite (bind_Ok _ _ _ _ _ (call_Ok _ _ _ Hg)).
  unfold lift. by erewrite upstream_proxy_args_conflict.
Qed.

(** ** Construction *)

Lemma init_quiet pc host port options (upstream kw : gmap string pyval) :
  upstream_proxy_args pc = Ok upstream →
  engine_kwargs "/tmp/.seleniumwire/storage" host port options upstream
    = Ok kw →
  ∃ self tr,
    MitmProxy.__init__ (quiet_env pc) host port options [] = (Ok self, tr)
    ∧ MitmProxy.master_options self = kw.
Proof.
  intros Hup Hkw. eexists _, _.
  unfold MitmProxy.__init__, MitmProxy.init_collaborators,
    MitmProxy.init_engine, MitmProxy._get_upstream_proxy_args,
    bind, call, lift, ret. simpl.
  rewrite Hup, Hkw. split; reflexivity.
Qed.

(** C2: when the HTTP and the HTTPS descriptor are both there and their
    [hostport] differ, the resolver raises the [ValueError]; the constructor
    returns no instance, whatever the collaborators do; and when the calls
    before the resolver went through, what the constructor raises is that
    [ValueError]. *)
Theorem C2_differing_hostport_fails_construction
    (env : Env) (host : string) (port : Z) (options : gmap string pyval)
    (http_proxy https_proxy : ProxyConf) (tr0 : trace) :
  pc_http (get_upstream_proxy env options) = Some http_proxy →
  pc_https (get_upstream_proxy env options) = Some https_proxy →
  hostport http_proxy ≠ hostport https_proxy →
  upstream_proxy_args (get_upstream_proxy env options)
    = Err (ValueError conflict_msg)
  ∧ (∀ self tr,
       MitmProxy.__init__ env host port options tr0 ≠ (Ok self, tr))
  ∧ (∀ home tr1,
       MitmProxy.init_collaborators env options tr0 = (Ok home, tr1) →
       raises env tr1 GetUpstreamProxy = None →
       (MitmProxy.__init__ env host port options tr0).1
       = Err (ValueError conflict_msg)).
Proof.
  intros Hh Hs Hne.
  pose proof (upstream_proxy_args_conflict _ _ _ Hh Hs Hne) as Hup.
  split; [exact Hup|]. split.
  - intros self tr Hinit.
    apply init_Ok_inv in Hinit as (upstream & Hok & _).
    rewrite Hup in Hok. discriminate.
  - intros home tr1 Hc Hg.
    by rewrite (init_conflict _ host port _ _ _ _ _ _ Hh Hs Hne Hc Hg).
Qed.

Lemma C2_differing_hostport_fails_construction_witness :
  (MitmProxy.__init__ (quiet_env conflicting_upstream) "127.0.0.1" 8080 ∅ []).1
  = Err (ValueError conflict_msg).
Proof.
  destruct (C2_differing_hostport_fails_construction
              (quiet_env conflicting_upstream) "127.0.0.1" 8080 ∅
              (mk_conf "http" "u" "p" "proxy.local:8080")
              (mk_conf "https" "u" "p" "proxy.local:9090") []
              eq_refl eq_refl ltac:(discriminate))
    as (_ & _ & Hraise).
  exact (Hraise _ _ eq_refl eq_refl).
Defined.

(** C9: on an instance the constructor returned, [scopes] is [['$^']] when
    [options.get('disable_capture', False)] is truthy and [[]] otherwise:
    the single pattern when the option is [True], the empty list when it
    is [False] or missing. *)
Theorem C9_scopes_after_construction
    (env : Env) (host : string) (port : Z) (options : gmap string pyval)
    (tr0 : trace) (self : MitmProxy.t) (tr : trace) :
  MitmProxy.__init__ env host port options tr0 = (Ok self, tr) →
  MitmProxy.scopes self
    = (if truthy (py_get options "disable_capture" (PyBool false))
       then ["$^"] else [])
  ∧ (options !! "disable_capture" = Some (PyBool true) →
     MitmProxy.scopes self = ["$^"])
  ∧ (options !! "disable_capture" = Some (PyBool false)
     ∨ options !! "disable_capture" = None →
     MitmProxy.scopes self = []).
Proof.
  intros Hinit. apply init_Ok_inv in Hinit as (_ & _ & _ & Hsc).
  split; [exact Hsc|]. rewrite Hsc. unfold py_get. split.
  - by intros ->.
  - by intros [-> | ->].
Qed.

Lemma C9_scopes_after_construction_witness :
  ∃ self tr,
    MitmProxy.__init__ (quiet_env no_upstream) "127.0.0.1" 0
      (<["disable_capture" := PyBool true]> ∅) [] = (Ok self, tr)
    ∧ MitmProxy.scopes self = ["$^"].
Proof.
  eexists _, _. split; [vm_compute; reflexivity|].
  eapply (C9_scopes_after_construction (quiet_env no_upstream) "127.0.0.1" 0
            (<["disable_capture" := PyBool true]> ∅) []).
  - vm_compute. reflexivity.
  - reflexivity.
Defined.

(** On every instance the constructor returns, the engine's [ssl_insecure]
    is [options.get('verify_ssl', True)] as it stands. *)
Lemma init_ssl_insecure env host port options tr0 self tr :
  MitmProxy.__init__ env host port options tr0 = (Ok self, tr) →
  MitmProxy.master_options self !! "ssl_insecure"
  = Some (py_get options "verify_ssl" DEFAULT_SSL_INSECURE).
Proof.
  intros Hinit. apply init_Ok_inv in Hinit as (upstream & _ & Hkw & _).
  unfold engine_kwargs in Hkw.
  destruct (dict_merge _ upstream) as [kw1|] eqn:H1; [|done].
  apply dict_merge_Ok in H1 as [Hd1 ->].
  apply dict_merge_Ok in Hkw as [Hd2 ->].
  apply lookup_union_Some; [done|]. left.
  apply lookup_union_Some; [done|]. left.
  reflexivity.
Qed.

(** C1: the constructor hands the value of [verify_ssl] to the engine as
    [ssl_insecure], unchanged: with [verify_ssl=True] the engine is told
    [ssl_insecure=True], with [verify_ssl=False] it is told
    [ssl_insecure=False], and without the option [ssl_insecure=True]. *)
Theorem C1_verify_ssl_sets_ssl_insecure (host : string) (port : Z) :
  (∀ b : bool, ∃ self tr,
     MitmProxy.__init__ (quiet_env no_upstream) host port
       (<["verify_ssl" := PyBool b]> ∅) [] = (Ok self, tr)
     ∧ MitmProxy.master_options self !! "ssl_insecure" = Some (PyBool b))
  ∧ (∃ self tr,
       MitmProxy.__init__ (quiet_env no_upstream) host port ∅ []
         = (Ok self, tr)
       ∧ MitmProxy.master_options self !! "ssl_insecure"
         = Some (PyBool true)).
Proof.
  split; [intros b|].
  - destruct (init_quiet no_upstream host port
                (<["verify_ssl" := PyBool b]> ∅) ∅
                (explicit_kwargs "/tmp/.seleniumwire/storage" host port
                   (<["verify_ssl" := PyBool b]> ∅)))
      as (self & tr & Hinit & Hkw); [reflexivity|reflexivity|].
    exists self, tr. split; [exact Hinit|]. rewrite Hkw. reflexivity.
  - destruct (init_quiet no_upstream host port ∅ ∅
                (explicit_kwargs "/tmp/.seleniumwire/storage" host port ∅))
      as (self & tr & Hinit & Hkw); [reflexivity|reflexivity|].
    exists self, tr. split; [exact Hinit|]. rewrite Hkw. reflexivity.
Qed.

(** ** Cleanup of the storage *)

Lemma init_emits env host port options (P : event → Prop) :
  (∀ ev, is_cleanup ev = false → P ev) →
  emits P (MitmProxy.__init__ env host port options).
Proof.
  intros HP. unfold MitmProxy.__init__, MitmProxy.init_collaborators,
    MitmProxy.init_engine, MitmProxy._get_upstream_proxy_args.
  repeat first
    [ apply emits_ret | apply emits_lift
    | apply emits_call; by apply HP
    | apply emits_bind; [|intros ?] ].
Qed.

Lemma init_cleanup_free env host port options tr0 :
  cleanup_calls (MitmProxy.__init__ env host port options tr0).2
  = cleanup_calls tr0.
Proof.
  destruct (init_emits env host port options
              (λ ev, is_cleanup ev = false) (λ _ H, H) tr0)
    as (evs & Heq & Hno).
  rewrite Heq, cleanup_calls_app, (cleanup_calls_none _ Hno). lia.
Qed.

(** C3, as the code has it: the constructor never calls [cleanup()]; the
    log it leaves, whether it returns or raises, is the log it started from
    followed by calls none of which is [cleanup()], so an error that comes
    after the storage was created reaches the caller with the storage not
    cleaned up. *)
Theorem C3_constructor_never_cleans_up
    (env : Env) (host : string) (port : Z) (options : gmap string pyval)
    (tr0 : trace) :
  ∃ evs,
    (MitmProxy.__init__ env host port options tr0).2 = tr0 ++ evs
    ∧ Forall (λ ev, is_cleanup ev = false) evs
    ∧ cleanup_calls (MitmProxy.__init__ env host port options tr0).2
      = cleanup_calls tr0.
Proof.
  destruct (init_emits env host port options
              (λ ev, is_cleanup ev = false) (λ _ H, H) tr0)
    as (evs & Heq & Hno).
  exists evs. split; [exact Heq|]. split; [exact Hno|].
  rewrite Heq, cleanup_calls_app, (cleanup_calls_none _ Hno). lia.
Qed.

(** C3 fails as stated: certificate extraction raises after the storage
    was created, and so does the resolver on conflicting descriptors; in
    both cases the error comes back with no [cleanup()] in the log. *)
Lemma C3_cleanup_on_failure_counterexample :
  ¬ cleans_up_on_failure (cert_fail_env no_upstream) "127.0.0.1" 0 ∅
  ∧ ¬ cleans_up_on_failure (quiet_env conflicting_upstream) "127.0.0.1" 0 ∅.
Proof.
  split; intros Hclaim.
  - specialize (Hclaim (Raised "OSError")
      [StorageCreate (MitmProxy._get_storage_args ∅);
       ExtractCertAndKey "/tmp/.seleniumwire/storage"] eq_refl eq_refl).
    simpl in Hclaim. lia.
  - specialize (Hclaim (ValueError conflict_msg)
      (collaborator_calls (quiet_env conflicting_upstream) ∅
       ++ [GetUpstreamProxy]) eq_refl eq_refl).
    simpl in Hclaim. lia.
Qed.

Lemma shutdown_twice_Ok_inv env self tr0 u tr :
  shutdown_twice env self tr0 = (Ok u, tr) →
  tr = tr0 ++ [MasterShutdown; StorageCleanup; MasterShutdown; StorageCleanup].
Proof.
  unfold shutdown_twice, MitmProxy.shutdown. intros H. inv_run.
  by rewrite <- !app_assoc.
Qed.

(** C4, as the code has it: [shutdown()] stops the master and calls
    [cleanup()] each time it is called.  When the master's [shutdown] and
    the storage's [cleanup] do not raise, two calls in sequence return and
    have called [cleanup()] twice. *)
Theorem C4_shutdown_twice_cleans_twice
    (env : Env) (self : MitmProxy.t) (tr0 : trace) :
  (∀ tr, raises env tr MasterShutdown = None) →
  (∀ tr, raises env tr StorageCleanup = None) →
  ∃ tr,
    shutdown_twice env self tr0 = (Ok tt, tr)
    ∧ tr = tr0 ++ [MasterShutdown; StorageCleanup;
                   MasterShutdown; StorageCleanup]
    ∧ cleanup_calls tr = (cleanup_calls tr0 + 2)%nat.
Proof.
  intros Hm Hc. eexists. split; [|split; [reflexivity|]].
  - unfold shutdown_twice, MitmProxy.shutdown, bind, call.
    rewrite Hm, Hc. cbn iota beta. rewrite Hm. cbn iota beta. rewrite Hc.
    by rewrite <- !app_assoc.
  - by rewrite cleanup_calls_app.
Qed.

Lemma C4_shutdown_twice_cleans_twice_witness :
  ∃ self tr0 tr,
    MitmProxy.__init__ (quiet_env no_upstream) "127.0.0.1" 0 ∅ []
      = (Ok self, tr0)
    ∧ shutdown_twice (quiet_env no_upstream) self tr0 = (Ok tt, tr)
    ∧ cleanup_calls tr = 2%nat.
Proof.
  destruct (init_quiet no_upstream "127.0.0.1" 0 ∅ ∅
              (explicit_kwargs "/tmp/.seleniumwire/storage" "127.0.0.1" 0 ∅))
    as (self & tr0 & Hinit & _); [reflexivity|reflexivity|].
  destruct (C4_shutdown_twice_cleans_twice (quiet_env no_upstream) self tr0
              (λ _, eq_refl) (λ _, eq_refl))
    as (tr & Hrun & _ & Hcount).
  exists self, tr0, tr. split; [exact Hinit|]. split; [exact Hrun|].
  rewrite Hcount.
  pose proof (init_cleanup_free (quiet_env no_upstream) "127.0.0.1" 0 ∅ [])
    as Hfree.
  rewrite Hinit in Hfree. simpl in Hfree. by rewrite Hfree.
Defined.

(** Whatever the collaborators do, a construction followed by two calls of
    [shutdown()] that all return has called [cleanup()] twice. *)
Lemma construct_then_shutdown_twice_count env host port options u tr :
  construct_then_shutdown_twice env host port options [] = (Ok u, tr) →
  cleanup_calls tr = 2%nat.
Proof.
  unfold construct_then_shutdown_twice. intros H.
  apply bind_Ok_inv in H as (self & tr1 & Hinit & Hrun).
  apply shutdown_twice_Ok_inv in Hrun as ->.
  pose proof (init_cleanup_free env host port options []) as Hfree.
  rewrite Hinit in Hfree. simpl in Hfree.
  by rewrite cleanup_calls_app, Hfree.
Qed.

(** C4 fails as stated: with collaborators that never raise, construction
    and two calls of [shutdown()] leave two calls of [cleanup()] in the
    log, not one. *)
Lemma C4_shutdown_twice_counterexample :
  ¬ shutdown_twice_cleans_once (quiet_env no_upstream) "127.0.0.1" 0 ∅.
Proof.
  intros (tr & Hrun & Hone).
  apply construct_then_shutdown_twice_count in Hrun.
  rewrite Hrun in Hone. discriminate.
Qed.

Example construct_then_shutdown_twice_ex :
  ∃ tr,
    construct_then_shutdown_twice (quiet_env no_upstream) "127.0.0.1" 0 ∅ []
      = (Ok tt, tr)
    ∧ cleanup_calls tr = 2%nat
    ∧ registered_addons tr
      = [DefaultAddons; SendToLogger; InterceptRequestHandler].
Proof. eexists. split; [|split]; vm_compute; reflexivity. Qed.

(** ** Pass-through options *)

Lemma passthrough_lookup_key (options : gmap string pyval) (k : string) :
  startswith "mitm_" k = true →
  passthrough options !! slice_from 5 k = options !! k.
Proof.
  intros Hp. rewrite passthrough_lookup. by rewrite <- startswith_mitm.
Qed.

Lemma engine_kwargs_Ok home host port options upstream kw :
  engine_kwargs home host port options upstream = Ok kw →
  explicit_kwargs home host port options ∪ upstream ##ₘ passthrough options
  ∧ kw = explicit_kwargs home host port options ∪ upstream
         ∪ passthrough options.
Proof.
  unfold engine_kwargs.
  destruct (dict_merge _ upstream) as [kw1|] eqn:H1; [|done].
  apply dict_merge_Ok in H1 as [_ ->]. by intros ?%dict_merge_Ok.
Qed.

Lemma engine_kwargs_forwards home host port options upstream kw k v :
  engine_kwargs home host port options upstream = Ok kw →
  startswith "mitm_" k = true → options !! k = Some v →
  kw !! slice_from 5 k = Some v.
Proof.
  intros [Hdisj ->]%engine_kwargs_Ok Hp Hk.
  apply lookup_union_Some; [done|]. right.
  by rewrite passthrough_lookup_key.
Qed.

(** Without a descriptor the engine options hold an upstream field only
    if the caller passed one through as [mitm_mode] and the like. *)
Lemma engine_kwargs_direct_mode home host port options kw (k : string) :
  engine_kwargs home host port options ∅ = Ok kw →
  k ∈ upstream_keys →
  kw !! k = options !! ("mitm_" ++ k)%string.
Proof.
  intros [_ ->]%engine_kwargs_Ok Hk.
  rewrite (right_id_L ∅ (∪)).
  rewrite lookup_union_r; [apply passthrough_lookup|].
  apply eq_None_not_Some. rewrite explicit_kwargs_keys.
  unfold upstream_keys, explicit_keys in *.
  rewrite !elem_of_cons, elem_of_nil in Hk.
  rewrite !elem_of_cons, elem_of_nil.
  intuition congruence.
Qed.

Lemma engine_kwargs_collision home host port options upstream k v :
  startswith "mitm_" k = true → options !! k = Some v →
  slice_from 5 k ∈ explicit_keys ∨ is_Some (upstream !! slice_from 5 k) →
  engine_kwargs home host port options upstream = Err TypeError.
Proof.
  intros Hp Hk Hcol. unfold engine_kwargs.
  destruct (dict_merge _ upstream) as [kw1|e] eqn:H1.
  - apply dict_merge_Ok in H1 as [Hdisj ->].
    apply (dict_merge_collision _ _ (slice_from 5 k)).
    + destruct Hcol as [Hex|[x Hup]].
      * apply (explicit_kwargs_keys home host port options) in Hex
          as [x Hex].
        exists x. apply lookup_union_Some; auto.
      * exists x. apply lookup_union_Some; auto.
    + exists v. by rewrite passthrough_lookup_key.
  - by apply dict_merge_Err in H1 as ->.
Qed.

Lemma init_collision_not_Ok env host port options tr0 k v :
  startswith "mitm_" k = true → options !! k = Some v →
  slice_from 5 k ∈ explicit_keys →
  ∀ self tr, MitmProxy.__init__ env host port options tr0 ≠ (Ok self, tr).
Proof.
  intros Hp Hk Hcol self tr Hinit.
  apply init_Ok_inv in Hinit as (upstream & _ & Hkw & _).
  rewrite (engine_kwargs_collision _ _ _ _ _ k v Hp Hk) in Hkw; [done|].
  by left.
Qed.

Lemma init_upstream_collision_not_Ok env host port options tr0 k v upstream :
  startswith "mitm_" k = true → options !! k = Some v →
  upstream_proxy_args (get_upstream_proxy env options) = Ok upstream →
  is_Some (upstream !! slice_from 5 k) →
  ∀ self tr, MitmProxy.__init__ env host port options tr0 ≠ (Ok self, tr).
Proof.
  intros Hp Hk Hup Hcol self tr Hinit.
  apply init_Ok_inv in Hinit as (upstream' & Hup' & Hkw & _).
  rewrite Hup in Hup'. injection Hup' as <-.
  rewrite (engine_kwargs_collision _ _ _ _ _ k v Hp Hk) in Hkw; [done|].
  by right.
Qed.

Lemma init_collision_raises env host port options tr0 home tr1 k v upstream :
  startswith "mitm_" k = true → options !! k = Some v →
  MitmProxy.init_collaborators env options tr0 = (Ok home, tr1) →
  raises env tr1 GetUpstreamProxy = None →
  upstream_proxy_args (get_upstream_proxy env options) = Ok upstream →
  slice_from 5 k ∈ explicit_keys ∨ is_Some (upstream !! slice_from 5 k) →
  MitmProxy.__init__ env host port options tr0
  = (Err TypeError, tr1 ++ [GetUpstreamProxy]).
Proof.
  intros Hp Hk Hc Hg Hup Hcol. unfold MitmProxy.__init__.
  rewrite (bind_Ok _ _ _ _ _ Hc).
  unfold MitmProxy.init_engine, MitmProxy._get_upstream_proxy_args.
  rewrite (bind_Ok _ _ _ upstream (tr1 ++ [GetUpstreamProxy])).
  - apply bind_Err. unfold lift.
    by rewrite (engine_kwargs_collision _ _ _ _ _ k v Hp Hk Hcol).
  - rewrite (bind_Ok _ _ _ _ _ (call_Ok _ _ _ Hg)).
    unfold lift. by rewrite Hup.
Qed.

(** C5, as the code has it: on an instance the constructor returned, every
    option whose key starts with [mitm_] is in the engine options under the
    key without the prefix, with its value.  A stripped key that is also one
    of the keywords written out in the call ([confdir], [listen_host],
    [listen_port], [ssl_insecure], [stream_websockets],
    [suppress_connection_errors]) or one of the upstream fields that were
    produced does not override it: building the keywords raises [TypeError],
    the constructor returns no instance, and when the calls before the
    keywords are built went through, [TypeError] is what the constructor
    raises, before the engine options are updated. *)
Theorem C5_passthrough_forwarded_collision_raises
    (env : Env) (host : string) (port : Z) (options : gmap string pyval)
    (tr0 : trace) (k : string) (v : pyval) :
  startswith "mitm_" k = true →
  options !! k = Some v →
  (∀ self tr,
     MitmProxy.__init__ env host port options tr0 = (Ok self, tr) →
     MitmProxy.master_options self !! slice_from 5 k = Some v)
  ∧ (∀ home upstream,
       slice_from 5 k ∈ explicit_keys ∨ is_Some (upstream !! slice_from 5 k) →
       engine_kwargs home host port options upstream = Err TypeError)
  ∧ (slice_from 5 k ∈ explicit_keys
     ∨ (∃ upstream,
          upstream_proxy_args (get_upstream_proxy env options) = Ok upstream
          ∧ is_Some (upstream !! slice_from 5 k)) →
     ∀ self tr,
       MitmProxy.__init__ env host port options tr0 ≠ (Ok self, tr))
  ∧ (∀ home tr1 upstream,
       MitmProxy.init_collaborators env options tr0 = (Ok home, tr1) →
       raises env tr1 GetUpstreamProxy = None →
       upstream_proxy_args (get_upstream_proxy env options) = Ok upstream →
       slice_from 5 k ∈ explicit_keys ∨ is_Some (upstream !! slice_from 5 k) →
       MitmProxy.__init__ env host port options tr0
       = (Err TypeError, tr1 ++ [GetUpstreamProxy])).
Proof.
  intros Hp Hk. split; [|split; [|split]].
  - intros self tr Hinit.
    apply init_Ok_inv in Hinit as (upstream & _ & Hkw & _).
    by eapply engine_kwargs_forwards.
  - intros home upstream Hcol. by eapply engine_kwargs_collision.
  - intros [Hcol | (upstream & Hup & Hcol)].
    + by eapply init_collision_not_Ok.
    + by eapply init_upstream_collision_not_Ok.
  - intros home tr1 upstream Hc Hg Hup Hcol.
    by eapply init_collision_raises.
Qed.

Lemma C5_passthrough_forwarded_collision_raises_witness :
  (∃ self tr,
     MitmProxy.__init__ (quiet_env no_upstream) "127.0.0.1" 8080
       (<["mitm_http2" := PyBool false]> ∅) [] = (Ok self, tr)
     ∧ MitmProxy.master_options self !! "http2" = Some (PyBool false))
  ∧ (MitmProxy.__init__
       (quiet_env (https_only (mk_conf "https" "bob" "pw" "proxy.local:8080")
                     PyNone PyNone))
       "127.0.0.1" 8080 (<["mitm_mode" := PyStr "regular"]> ∅) []).1
    = Err TypeError.
Proof.
  split.
  - destruct (init_quiet no_upstream "127.0.0.1" 8080
                (<["mitm_http2" := PyBool false]> ∅) ∅
                (<["http2" := PyBool false]>
                   (explicit_kwargs "/tmp/.seleniumwire/storage" "127.0.0.1"
                      8080 ∅)))
      as (self & tr & Hinit & _);
      [reflexivity|vm_compute; reflexivity|].
    exists self, tr. split; [exact Hinit|].
    destruct (C5_passthrough_forwarded_collision_raises
                (quiet_env no_upstream) "127.0.0.1" 8080
                (<["mitm_http2" := PyBool false]> ∅) [] "mitm_http2"
                (PyBool false)) as (Hfwd & _);
      [reflexivity|vm_compute; reflexivity|].
    exact (Hfwd self tr Hinit).
  - destruct (C5_passthrough_forwarded_collision_raises
                (quiet_env (https_only
                              (mk_conf "https" "bob" "pw" "proxy.local:8080")
                              PyNone PyNone))
                "127.0.0.1" 8080 (<["mitm_mode" := PyStr "regular"]> ∅) []
                "mitm_mode" (PyStr "regular"))
      as (_ & _ & _ & Hraise);
      [reflexivity|vm_compute; reflexivity|].
    rewrite (Hraise "/tmp/.seleniumwire/storage"
               (collaborator_calls
                  (quiet_env (https_only
                                (mk_conf "https" "bob" "pw"
                                   "proxy.local:8080") PyNone PyNone))
                  (<["mitm_mode" := PyStr "regular"]> ∅))
               (conf_args (https_only
                             (mk_conf "https" "bob" "pw" "proxy.local:8080")
                             PyNone PyNone)
                  (Some (mk_conf "https" "bob" "pw" "proxy.local:8080"))));
      [reflexivity|reflexivity|reflexivity|reflexivity|].
    right. change (slice_from 5 "mitm_mode") with "mode".
    rewrite conf_args_mode. by eexists.
Defined.

(** C5 fails as stated: with [mitm_listen_port] among the options the
    stripped key repeats the keyword [listen_port], and the constructor
    raises instead of letting the pass-through value win. *)
Lemma C5_passthrough_override_counterexample :
  ¬ passthrough_always_wins (quiet_env no_upstream) "127.0.0.1" 8080
      (<["mitm_listen_port" := PyInt 9999]> ∅).
Proof.
  intros Hclaim.
  destruct (Hclaim "mitm_listen_port" (PyInt 9999))
    as (self & tr & Hinit & _); [reflexivity|vm_compute; reflexivity|].
  revert Hinit.
  apply (init_collision_not_Ok _ _ _ _ _ "mitm_listen_port" (PyInt 9999));
    [reflexivity|vm_compute; reflexivity|].
  unfold explicit_keys. set_solver.
Qed.

Example init_collision_ex :
  (MitmProxy.__init__ (quiet_env no_upstream) "127.0.0.1" 8080
     (<["mitm_listen_port" := PyInt 9999]> ∅) []).1 = Err TypeError.
Proof. vm_compute. reflexivity. Qed.

(** ** Addons and the conflict error *)

Lemma registered_addons_collaborator_calls env options :
  registered_addons (collaborator_calls env options ++ [GetUpstreamProxy])
  = [DefaultAddons; SendToLogger; InterceptRequestHandler].
Proof. reflexivity. Qed.

(** C6, as the code has it: when the calls before the resolver went through
    and the resolver raises on conflicting descriptors, the constructor
    raises that [ValueError] with the default addons, [SendToLogger] and
    [InterceptRequestHandler] already registered, in that order; the engine
    options have not been updated and no proxy server has been made. *)
Theorem C6_addons_registered_before_conflict
    (env : Env) (host : string) (port : Z) (options : gmap string pyval)
    (http_proxy https_proxy : ProxyConf) (tr0 : trace)
    (home : string) (tr1 : trace) :
  pc_http (get_upstream_proxy env options) = Some http_proxy →
  pc_https (get_upstream_proxy env options) = Some https_proxy →
  hostport http_proxy ≠ hostport https_proxy →
  MitmProxy.init_collaborators env options tr0 = (Ok home, tr1) →
  raises env tr1 GetUpstreamProxy = None →
  ∃ evs,
    MitmProxy.__init__ env host port options tr0
      = (Err (ValueError conflict_msg), tr0 ++ evs)
    ∧ registered_addons evs
      = [DefaultAddons; SendToLogger; InterceptRequestHandler]
    ∧ engine_started evs = false.
Proof.
  intros Hh Hs Hne Hc Hg.
  exists (collaborator_calls env options ++ [GetUpstreamProxy]).
  split; [|split; reflexivity].
  rewrite (init_conflict _ host port _ _ _ _ _ _ Hh Hs Hne Hc Hg).
  apply init_collaborators_Ok in Hc as [_ ->]. by rewrite app_assoc.
Qed.

Lemma C6_addons_registered_before_conflict_witness :
  ∃ evs,
    MitmProxy.__init__ (quiet_env conflicting_upstream) "127.0.0.1" 8080 ∅ []
      = (Err (ValueError conflict_msg), evs)
    ∧ registered_addons evs
      = [DefaultAddons; SendToLogger; InterceptRequestHandler].
Proof.
  destruct (C6_addons_registered_before_conflict
              (quiet_env conflicting_upstream) "127.0.0.1" 8080 ∅
              (mk_conf "http" "u" "p" "proxy.local:8080")
              (mk_conf "https" "u" "p" "proxy.local:9090") []
              "/tmp/.seleniumwire/storage"
              (collaborator_calls (quiet_env conflicting_upstream) ∅)
              eq_refl eq_refl ltac:(discriminate) eq_refl eq_refl)
    as (evs & Hinit & Hadd & _).
  exists evs. split; [exact Hinit|exact Hadd].
Defined.

(** C6 fails as stated: on the scenario with [proxy.local:8080] for HTTP
    and [proxy.local:9090] for HTTPS the constructor raises the conflict
    error after the three addons were registered. *)
Lemma C6_no_addons_on_conflict_counterexample :
  ¬ no_addons_on_conflict (quiet_env conflicting_upstream) "127.0.0.1" 8080 ∅.
Proof.
  intros Hclaim.
  specialize (Hclaim
    (collaborator_calls (quiet_env conflicting_upstream) ∅
     ++ [GetUpstreamProxy]) eq_refl).
  rewrite registered_addons_collaborator_calls in Hclaim. discriminate.
Qed.

Example passthrough_ex :
  passthrough (<["mitm_foo" := PyInt 1]> (<["verify_ssl" := PyBool true]> ∅))
  = <["foo" := PyInt 1]> ∅.
Proof. vm_compute. reflexivity. Qed.

Example engine_kwargs_ex :
  engine_kwargs "/h" "localhost" 0 (<["mitm_listen_port" := PyInt 1]> ∅) ∅
  = Err TypeError.
Proof. vm_compute. reflexivity. Qed.

Example init_ex :
  (MitmProxy.__init__ (quiet_env no_upstream) "127.0.0.1" 0
     (<["disable_capture" := PyBool true]> ∅) []).1
  = Ok {| MitmProxy.options := <["disable_capture" := PyBool true]> ∅;
          MitmProxy.storage := "/tmp/.seleniumwire/storage";
          MitmProxy.scopes := ["$^"];
          MitmProxy.request_interceptor := None;
          MitmProxy.response_interceptor := None;
          MitmProxy.master_addons :=
            [DefaultAddons; SendToLogger; InterceptRequestHandler];
          MitmProxy.master_options :=
            explicit_kwargs "/tmp/.seleniumwire/storage" "127.0.0.1" 0 ∅ |}.
Proof. vm_compute. reflexivity. Qed.

(** * Further properties *)

(** ** [str.replace] and the log bridge *)

Local Open Scope string_scope.

Example py_replace_ex :
  py_replace "warn" "warning" "warn" = "warning"
  ∧ py_replace "warn" "warning" "warning" = "warninging"
  ∧ py_replace "warn" "warning" "xwarnwarn" = "xwarningwarning"
  ∧ py_replace "aa" "b" "aaa" = "ba"
  ∧ py_replace "" "-" "abc" = "-a-b-c-".
Proof. repeat split; reflexivity. Qed.

Lemma startswith_empty (old : string) : startswith old "" = true → old = "".
Proof. unfold startswith. by destruct old. Qed.

Lemma contains_occurs (old s : string) :
  contains old s = true ↔ occurs old s.
Proof.
  split.
  - induction s as [|c s IH]; simpl.
    + intros ->%startswith_empty. by exists "", "".
    + intros [Hp | Hc]%orb_true_iff.
      * exists "", (slice_from (String.length old) (String c s)).
        by apply startswith_split.
      * destruct (IH Hc) as (a & b & ->). by exists (String c a), b.
  - intros (a & b & ->). induction a as [|c a IH].
    + change ("" ++ old ++ b) with (old ++ b).
      destruct (old ++ b) as [|c s] eqn:Hs; cbn [contains]; rewrite <- Hs.
      * apply startswith_app.
      * by rewrite startswith_app.
    + rewrite append_String. cbn [contains]. rewrite IH. apply orb_true_r.
Qed.

Lemma replace_go_skip (old new x b : string) :
  replace_go old new (String.length x) (x ++ b) = replace_go old new 0 b.
Proof.
  induction x as [|c x IH]; [done|].
  rewrite append_String. simpl. exact IH.
Qed.

Lemma replace_go_match (old new b : string) :
  old ≠ "" →
  replace_go old new 0 (old ++ b) = new ++ replace_go old new 0 b.
Proof.
  intros Hne. destruct old as [|c o]; [done|].
  pose proof (startswith_app (String c o) b) as Hp.
  rewrite append_String in *. cbn [replace_go]. rewrite Hp.
  replace (String.length (String c o) - 1)%nat with (String.length o)
    by (simpl; lia).
  by rewrite replace_go_skip.
Qed.

Lemma replace_go_absent (old new s : string) :
  contains old s = false → replace_go old new 0 s = s.
Proof.
  induction s as [|c s IH]; [done|].
  cbn [contains replace_go]. intros [Hp Hc]%orb_false_iff.
  rewrite Hp. by rewrite IH.
Qed.

(** X1: a level in which ['warn'] does not occur is looked up on the logger
    under its own name: the logger method of that name gets the message,
    and when the logger has no such attribute [logger.info] gets it. *)
Theorem X1_log_level_without_warn
    (has_attr : string → bool) (e : SendToLogger.entry) :
  contains "warn" (SendToLogger.level e) = false →
  SendToLogger.method_name e = SendToLogger.level e
  ∧ SendToLogger.log has_attr e
    = ((if has_attr (SendToLogger.level e)
        then SendToLogger.level e else "info"),
       SendToLogger.msg e).
Proof.
  intros Hno.
  assert (SendToLogger.method_name e = SendToLogger.level e) as Hname
    by (by apply replace_go_absent).
  split; [exact Hname|].
  unfold SendToLogger.log. by rewrite Hname.
Qed.

Lemma X1_log_level_without_warn_witness :
  SendToLogger.log std_has_attr
    {| SendToLogger.level := "error"; SendToLogger.msg := "boom" |}
  = ("error", "boom")
  ∧ SendToLogger.log std_has_attr
      {| SendToLogger.level := "alert"; SendToLogger.msg := "hey" |}
    = ("info", "hey").
Proof.
  split.
  - exact (proj2 (X1_log_level_without_warn std_has_attr
                    {| SendToLogger.level := "error";
                       SendToLogger.msg := "boom" |} eq_refl)).
  - exact (proj2 (X1_log_level_without_warn std_has_attr
                    {| SendToLogger.level := "alert";
                       SendToLogger.msg := "hey" |} eq_refl)).
Defined.

(** X2: a level that starts with ['warn'] is looked up with that prefix
    turned into ['warning'] and the rest kept when ['warn'] does not occur
    in it again.  So ['warn'] reaches [logger.warning], but the level
    ['warning'] is looked up as ['warninging'], which a logger does not
    have, and its message goes to [logger.info]. *)
Theorem X2_log_level_warn_prefix
    (has_attr : string → bool) (e : SendToLogger.entry) (rest : string) :
  SendToLogger.level e = "warn" ++ rest →
  contains "warn" rest = false →
  SendToLogger.method_name e = "warning" ++ rest
  ∧ SendToLogger.log has_attr e
    = ((if has_attr ("warning" ++ rest) then "warning" ++ rest else "info"),
       SendToLogger.msg e).
Proof.
  intros Hlevel Hno.
  assert (SendToLogger.method_name e = "warning" ++ rest) as Hname.
  { unfold SendToLogger.method_name, py_replace. rewrite Hlevel.
    rewrite replace_go_match by done. by rewrite replace_go_absent. }
  split; [exact Hname|].
  unfold SendToLogger.log. by rewrite Hname.
Qed.

Lemma X2_log_level_warn_prefix_witness :
  SendToLogger.log std_has_attr
    {| SendToLogger.level := "warn"; SendToLogger.msg := "careful" |}
  = ("warning", "careful")
  ∧ SendToLogger.log std_has_attr
      {| SendToLogger.level := "warning"; SendToLogger.msg := "careful" |}
    = ("info", "careful").
Proof.
  split.
  - exact (proj2 (X2_log_level_warn_prefix std_has_attr
                    {| SendToLogger.level := "warn";
                       SendToLogger.msg := "careful" |} "" eq_refl eq_refl)).
  - exact (proj2 (X2_log_level_warn_prefix std_has_attr
                    {| SendToLogger.level := "warning";
                       SendToLogger.msg := "careful" |} "ing"
                    eq_refl eq_refl)).
Defined.

(** ** More on the upstream proxy resolver *)

(** X3: the resolver raises only on a conflict: its result is an error
    exactly when both descriptors are there with different [hostport], and
    the error is then the [ValueError] of line 101; in every other case it
    returns a dictionary. *)
Theorem X3_resolver_raises_only_on_conflict (pc : ProxyConfig) :
  (∀ e, upstream_proxy_args pc = Err e ↔
        e = ValueError conflict_msg
        ∧ ∃ h s, pc_http pc = Some h ∧ pc_https pc = Some s
                 ∧ hostport h ≠ hostport s)
  ∧ ((∃ args, upstream_proxy_args pc = Ok args) ↔
     ¬ ∃ h s, pc_http pc = Some h ∧ pc_https pc = Some s
              ∧ hostport h ≠ hostport s).
Proof.
  unfold upstream_proxy_args, select_conf.
  destruct (pc_http pc) as [h|], (pc_https pc) as [s|];
    try (split; [intros e; split; [done|by intros (_ & ? & ? & ? & ? & _)]
                |split; [by intros _ (? & ? & ? & ? & _)|eauto]]).
  case_bool_decide as Hne.
  - split.
    + intros e. split; [intros [= <-]; eauto 10|by intros [-> _]].
    + split; [by intros [? ?]|]. intros []. eauto 10.
  - split.
    + intros e. split; [done|].
      intros (_ & h' & s' & [= <-] & [= <-] & Hne'). by destruct Hne.
    + split; [|eauto]. intros _ (h' & s' & [= <-] & [= <-] & Hne').
      by destruct Hne.
Qed.

(** X4: the fields the resolver returns always come with [mode]: [mode]
    is set exactly when a descriptor is configured, every key returned is
    one of [mode], [upstream_auth], [upstream_custom_auth], [no_proxy], and
    with no descriptor the custom authorization and the no-proxy list of the
    configuration are dropped, truthy or not. *)
Theorem X4_resolver_fields_need_descriptor
    (pc : ProxyConfig) (args : gmap string pyval) :
  upstream_proxy_args pc = Ok args →
  (is_Some (args !! "mode") ↔ is_Some (pc_http pc) ∨ is_Some (pc_https pc))
  ∧ (∀ k : string, is_Some (args !! k) →
       k ∈ upstream_keys ∧ is_Some (args !! "mode"))
  ∧ (pc_http pc = None → pc_https pc = None → args = ∅).
Proof.
  intros (conf & Hsel & ->)%upstream_proxy_args_Ok.
  assert (is_Some conf ↔ is_Some (pc_http pc) ∨ is_Some (pc_https pc))
    as Hconf.
  { unfold select_conf in Hsel.
    destruct (pc_http pc), (pc_https pc); try case_bool_decide;
      simplify_eq; split; eauto; intros [[? ?]|[? ?]]; done. }
  assert (is_Some (conf_args pc conf !! "mode") ↔ is_Some conf) as Hmode.
  { destruct conf as [c|].
    - rewrite conf_args_mode. split; eauto.
    - simpl. rewrite lookup_empty. split; by intros [? ?]. }
  split; [by rewrite Hmode|]. split.
  - intros k Hk. split; [by eapply conf_args_keys|].
    apply Hmode. destruct conf; [eauto|].
    simpl in Hk. rewrite lookup_empty in Hk. by destruct Hk.
  - intros Hh Hs. destruct conf as [c|]; [|done].
    destruct (proj1 Hconf) as [[? H]|[? H]]; [eauto|congruence..].
Qed.

Lemma X4_resolver_fields_need_descriptor_witness :
  upstream_proxy_args (neither (PyStr "Bearer x") (PyList ["localhost"]))
  = Ok ∅.
Proof.
  destruct (X4_resolver_fields_need_descriptor
              (neither (PyStr "Bearer x") (PyList ["localhost"])) ∅ eq_refl)
    as (_ & _ & Hnone).
  by rewrite <- (Hnone eq_refl eq_refl).
Defined.

Lemma Ok_inj {A} (a b : A) : Ok a = Ok b → a = b.
Proof. by intros [= ->]. Qed.

(** X5: a field that is [None] is written into the strings as the text
    [None], each field on its own.  Whatever the other fields are, a
    descriptor with a non-empty username and no password gives the
    authentication string [username:None]; one without scheme gives a mode
    that starts with [upstream:None://]; and one without hostport gives a
    mode that ends with [://None]. *)
Theorem X5_none_fields_formatted_as_text
    (pc : ProxyConfig) (c : ProxyConf) :
  select_conf pc = Ok (Some c) →
  ∃ args,
    upstream_proxy_args pc = Ok args
    ∧ (∀ u, username c = Some u → u ≠ "" → password c = None →
         args !! "upstream_auth" = Some (PyStr (u ++ ":None")))
    ∧ (scheme c = None →
       args !! "mode"
       = Some (PyStr ("upstream:None://" ++ fmt (hostport c))))
    ∧ (hostport c = None →
       args !! "mode"
       = Some (PyStr ("upstream:" ++ fmt (scheme c) ++ "://None"))).
Proof.
  intros Hsel. exists (conf_args pc (Some c)).
  split; [unfold upstream_proxy_args; by rewrite Hsel|].
  split; [|split].
  - intros u Hu Hne Hp.
    rewrite conf_args_upstream_auth. unfold auth_of, field_truthy.
    rewrite Hu, Hp. by destruct (String.eqb_spec u "").
  - intros Hs. rewrite conf_args_mode. unfold mode_of. by rewrite Hs.
  - intros Hh. rewrite conf_args_mode. unfold mode_of. by rewrite Hh.
Qed.

Lemma X5_none_fields_formatted_as_text_witness :
  (∃ args,
     upstream_proxy_args
       (http_only {| scheme := Some "http"; username := Some "bob";
                     password := None;
                     hostport := Some "proxy.local:3128" |}
                  PyNone PyNone) = Ok args
     ∧ args !! "upstream_auth" = Some (PyStr "bob:None")
     ∧ args !! "mode" = Some (PyStr "upstream:http://proxy.local:3128"))
  ∧ (∃ args,
       upstream_proxy_args
         (https_only {| scheme := None; username := Some "bob";
                        password := Some "pw";
                        hostport := Some "proxy.local:3128" |}
                     PyNone PyNone) = Ok args
       ∧ args !! "mode" = Some (PyStr "upstream:None://proxy.local:3128")
       ∧ args !! "upstream_auth" = Some (PyStr "bob:pw")).
Proof.
  split.
  - destruct (X5_none_fields_formatted_as_text
                (http_only {| scheme := Some "http"; username := Some "bob";
                              password := None;
                              hostport := Some "proxy.local:3128" |}
                           PyNone PyNone)
                {| scheme := Some "http"; username := Some "bob";
                   password := None; hostport := Some "proxy.local:3128" |}
                eq_refl)
      as (args & Hargs & Hauth & _).
    exists args. split; [exact Hargs|]. split.
    + exact (Hauth "bob" eq_refl ltac:(discriminate) eq_refl).
    + apply Ok_inj in Hargs as <-. reflexivity.
  - destruct (X5_none_fields_formatted_as_text
                (https_only {| scheme := None; username := Some "bob";
                               password := Some "pw";
                               hostport := Some "proxy.local:3128" |}
                            PyNone PyNone)
                {| scheme := None; username := Some "bob";
                   password := Some "pw";
                   hostport := Some "proxy.local:3128" |}
                eq_refl)
      as (args & Hargs & _ & Hmode & _).
    exists args. split; [exact Hargs|]. split.
    + exact (Hmode eq_refl).
    + apply Ok_inj in Hargs as <-. reflexivity.
Defined.

(** ** More on the keywords of [mitmproxy_opts.update] *)

(** X6: the comprehension of line 59 holds, under each key [k], what the
    options hold under ['mitm_' + k], and nothing else: every entry of it
    comes from an option whose key starts with [mitm_], with the prefix cut
    off and the value kept. *)
Theorem X6_passthrough_is_the_prefixed_options
    (options : gmap string pyval) :
  (∀ k : string, passthrough options !! k = options !! ("mitm_" ++ k))
  ∧ (∀ (k : string) v, passthrough options !! k = Some v →
       ∃ k0, startswith "mitm_" k0 = true ∧ slice_from 5 k0 = k
             ∧ options !! k0 = Some v)
  ∧ ((∀ (k0 : string), is_Some (options !! k0) →
        startswith "mitm_" k0 = false) →
     passthrough options = ∅).
Proof.
  split; [apply passthrough_lookup|]. split.
  - intros k v Hk. rewrite passthrough_lookup in Hk.
    exists ("mitm_" ++ k). split; [apply startswith_app|].
    split; [apply slice_mitm|done].
  - intros Hnone. apply map_eq. intros k.
    rewrite passthrough_lookup, lookup_empty.
    apply eq_None_not_Some. intros Hk. apply Hnone in Hk.
    by rewrite startswith_app in Hk.
Qed.

Lemma explicit_upstream_disjoint home host port options pc conf :
  explicit_kwargs home host port options ##ₘ conf_args pc conf.
Proof.
  apply map_disjoint_spec. intros k x y Hx Hy.
  assert (k ∈ explicit_keys) as Hex
    by (eapply explicit_kwargs_keys; eauto).
  assert (k ∈ upstream_keys) as Hup by (eapply conf_args_keys; eauto).
  unfold explicit_keys, upstream_keys in *.
  rewrite !elem_of_cons, elem_of_nil in Hex.
  rewrite !elem_of_cons, elem_of_nil in Hup.
  intuition congruence.
Qed.

Lemma engine_kwargs_free home host port options pc conf :
  passthrough_free options (conf_args pc conf) →
  engine_kwargs home host port options (conf_args pc conf)
  = Ok (explicit_kwargs home host port options ∪ conf_args pc conf
        ∪ passthrough options).
Proof.
  intros Hfree. unfold engine_kwargs, dict_merge.
  rewrite decide_True by apply explicit_upstream_disjoint.
  rewrite decide_True; [done|].
  apply map_disjoint_spec. intros k x y Hx Hy.
  rewrite passthrough_lookup in Hy.
  destruct (Hfree k) as [Hex Hup]; [eauto|].
  apply lookup_union_Some in Hx as [Hx|Hx];
    [|congruence|apply explicit_upstream_disjoint].
  apply Hex. eapply explicit_kwargs_keys; eauto.
Qed.

(** X7: the fields of the resolver never repeat a keyword written out in
    the call, so building the keywords raises only for a pass-through
    option: it succeeds exactly when no option ['mitm_' + k] has a [k] that
    is one of the six keywords or a field the resolver produced, and gives
    the union of the three dictionaries then. *)
Theorem X7_keywords_built_unless_passthrough_repeats
    (home host : string) (port : Z) (options : gmap string pyval)
    (pc : ProxyConfig) (conf : option ProxyConf) :
  (passthrough_free options (conf_args pc conf) →
   engine_kwargs home host port options (conf_args pc conf)
   = Ok (explicit_kwargs home host port options ∪ conf_args pc conf
         ∪ passthrough options))
  ∧ (¬ passthrough_free options (conf_args pc conf) →
     engine_kwargs home host port options (conf_args pc conf)
     = Err TypeError).
Proof.
  split; [apply engine_kwargs_free|].
  unfold engine_kwargs, dict_merge.
  rewrite decide_True by apply explicit_upstream_disjoint.
  intros Hnot. rewrite decide_False; [done|].
  intros Hd. apply Hnot. intros k [v Hk].
  rewrite map_disjoint_spec in Hd.
  split.
  - intros Hex.
    apply (explicit_kwargs_keys home host port options) in Hex as [x Hx].
    apply (Hd k x v); [|by rewrite passthrough_lookup].
    apply lookup_union_Some; [apply explicit_upstream_disjoint|auto].
  - apply eq_None_not_Some. intros [x Hx].
    apply (Hd k x v); [|by rewrite passthrough_lookup].
    apply lookup_union_Some; [apply explicit_upstream_disjoint|auto].
Qed.

Lemma X7_keywords_built_unless_passthrough_repeats_witness :
  engine_kwargs "/h" "127.0.0.1" 8080 (<["mitm_http2" := PyBool false]> ∅)
    (conf_args no_upstream None)
  = Ok (explicit_kwargs "/h" "127.0.0.1" 8080
          (<["mitm_http2" := PyBool false]> ∅)
        ∪ conf_args no_upstream None
        ∪ passthrough (<["mitm_http2" := PyBool false]> ∅)).
Proof.
  apply (X7_keywords_built_unless_passthrough_repeats
           "/h" "127.0.0.1" 8080 (<["mitm_http2" := PyBool false]> ∅)
           no_upstream None).
  intros k [Heq | Hk]%lookup_insert_is_Some'.
  - change "mitm_http2" with ("mitm_" ++ "http2") in Heq.
    apply (inj (String.append "mitm_")) in Heq as <-.
    split; [|done].
    unfold explicit_keys. rewrite !elem_of_cons, elem_of_nil.
    intuition discriminate.
  - rewrite lookup_empty in Hk. by destruct Hk.
Defined.

(** ** More on construction *)

Local Open Scope list_scope.

Lemma bind_Err_inv {A B} (m : M A) (k : A → M B) tr e tr' :
  bind m k tr = (Err e, tr') →
  m tr = (Err e, tr')
  ∨ ∃ a tr1, m tr = (Ok a, tr1) ∧ k a tr1 = (Err e, tr').
Proof.
  unfold bind. destruct (m tr) as [[a|e1] tr1]; [|intros [= -> ->]; by left].
  intros H. right. by exists a, tr1.
Qed.

Lemma call_Err_inv env ev tr e tr' :
  call env ev tr = (Err e, tr') → raised_last env e tr'.
Proof.
  unfold call. destruct (raises env tr ev) as [e1|] eqn:Hr; [|done].
  intros [= <- <-]. by exists tr, ev.
Qed.

(** Takes a hypothesis [m tr = (Err e, _)] apart until the call that
    raised is found. *)
Ltac inv_raise H :=
  repeat match type of H with
  | bind _ _ _ = (Err _, _) =>
      let H1 := fresh "Hrun" in
      apply bind_Err_inv in H as [H|(? & ? & H1 & H)];
      [by apply call_Err_inv in H|apply call_Ok_inv in H1 as [H1 ->]]
  end.

Lemma init_collaborators_Err env options tr0 e tr :
  MitmProxy.init_collaborators env options tr0 = (Err e, tr) →
  raised_last env e tr.
Proof.
  unfold MitmProxy.init_collaborators. intros H. inv_raise H.
  by apply ret_inv in H as [? _].
Qed.

Lemma init_Ok_full env host port options tr0 self tr :
  MitmProxy.__init__ env host port options tr0 = (Ok self, tr) →
  ∃ upstream kw,
    upstream_proxy_args (get_upstream_proxy env options) = Ok upstream
    ∧ engine_kwargs (storage_home_dir env (MitmProxy._get_storage_args options))
        host port options upstream = Ok kw
    ∧ tr = tr0 ++ collaborator_calls env options
           ++ [GetUpstreamProxy; OptionsUpdate kw; NewProxyServer]
    ∧ self = {| MitmProxy.options := options;
                MitmProxy.storage :=
                  storage_home_dir env (MitmProxy._get_storage_args options);
                MitmProxy.scopes :=
                  if truthy (py_get options "disable_capture" (PyBool false))
                  then ["$^"%string] else [];
                MitmProxy.request_interceptor := None;
                MitmProxy.response_interceptor := None;
                MitmProxy.master_addons :=
                  [DefaultAddons; SendToLogger; InterceptRequestHandler];
                MitmProxy.master_options := kw |}.
Proof.
  unfold MitmProxy.__init__. intros H.
  apply bind_Ok_inv in H as (home & tr1 & Hc & H).
  apply init_collaborators_Ok in Hc as [-> ->].
  unfold MitmProxy.init_engine, MitmProxy._get_upstream_proxy_args in H.
  inv_run. injection H as ->. exists a, a0.
  split; [done|]. split; [done|]. split; [|done].
  by rewrite <- !app_assoc.
Qed.

(** X8: when the constructor raises, either the last call it made to a
    collaborator raised that exception, or all the calls up to
    [get_upstream_proxy] returned, nothing was called after it, and the
    exception is the constructor's own: the [ValueError] of the resolver or
    the [TypeError] of a repeated keyword. *)
Theorem X8_constructor_raises_at_last_call
    (env : Env) (host : string) (port : Z) (options : gmap string pyval)
    (tr0 : trace) (e : exn) (tr : trace) :
  MitmProxy.__init__ env host port options tr0 = (Err e, tr) →
  raised_last env e tr
  ∨ (tr = tr0 ++ collaborator_calls env options ++ [GetUpstreamProxy]
     ∧ (e = ValueError conflict_msg ∨ e = TypeError)).
Proof.
  unfold MitmProxy.__init__. intros H.
  apply bind_Err_inv in H as [H|(home & tr1 & Hc & H)];
    [left; by eapply init_collaborators_Err|].
  apply init_collaborators_Ok in Hc as [-> ->].
  unfold MitmProxy.init_engine, MitmProxy._get_upstream_proxy_args in H.
  apply bind_Err_inv in H as [H|(up & tr2 & Hup & H)].
  - apply bind_Err_inv in H as [H|(? & ? & Hg & H)];
      [left; by apply call_Err_inv in H|].
    apply call_Ok_inv in Hg as [_ ->]. apply lift_inv in H as [H ->].
    right. split; [by rewrite <- app_assoc|]. left.
    symmetry in H.
    unfold upstream_proxy_args, select_conf in H.
    repeat case_match; by simplify_eq.
  - inv_run.
    apply bind_Err_inv in H as [H|(kw & tr3 & Hkw & H)].
    + apply lift_inv in H as [H ->].
      right. split; [by rewrite <- app_assoc|]. right.
      symmetry in H. unfold engine_kwargs in H.
      destruct (dict_merge _ up) eqn:H1.
      * by apply dict_merge_Err in H.
      * injection H as <-. by apply dict_merge_Err in H1.
    + apply lift_inv in Hkw as [_ ->]. left. inv_raise H.
      by apply ret_inv in H as [? _].
Qed.

Lemma X8_constructor_raises_at_last_call_witness :
  raised_last storage_fail_env (Raised "OSError")
    [StorageCreate (MitmProxy._get_storage_args ∅)]
  ∨ ([StorageCreate (MitmProxy._get_storage_args ∅)]
     = [] ++ collaborator_calls storage_fail_env ∅ ++ [GetUpstreamProxy]
     ∧ (Raised "OSError" = ValueError conflict_msg
        ∨ Raised "OSError" = TypeError)).
Proof.
  apply (X8_constructor_raises_at_last_call storage_fail_env
           "127.0.0.1" 0 ∅ []).
  reflexivity.
Defined.

(** X9: a construction that returns has made these calls and no others, in
    this order: [storage.create], [extract_cert_and_key] on its home
    directory, the request modifier, the event loop, the options, the
    master, the three addons, [get_upstream_proxy], [update] with exactly
    the options the instance then reports, and the proxy server.  The
    instance holds the home directory of that storage and has no
    interceptor. *)
Theorem X9_constructor_call_order
    (env : Env) (host : string) (port : Z) (options : gmap string pyval)
    (tr0 : trace) (self : MitmProxy.t) (tr : trace) :
  MitmProxy.__init__ env host port options tr0 = (Ok self, tr) →
  tr = tr0 ++ collaborator_calls env options
       ++ [GetUpstreamProxy; OptionsUpdate (MitmProxy.master_options self);
           NewProxyServer]
  ∧ MitmProxy.storage self
    = storage_home_dir env (MitmProxy._get_storage_args options)
  ∧ registered_addons tr
    = registered_addons tr0 ++ MitmProxy.master_addons self
  ∧ MitmProxy.request_interceptor self = None
  ∧ MitmProxy.response_interceptor self = None.
Proof.
  intros (up & kw & _ & _ & -> & ->)%init_Ok_full. simpl.
  split; [done|]. split; [done|]. split; [|done].
  unfold registered_addons. by rewrite omap_app.
Qed.

Lemma init_never_raises env host port options tr0 upstream kw :
  never_raises env →
  upstream_proxy_args (get_upstream_proxy env options) = Ok upstream →
  engine_kwargs (storage_home_dir env (MitmProxy._get_storage_args options))
    host port options upstream = Ok kw →
  ∃ self,
    MitmProxy.__init__ env host port options tr0
    = (Ok self, tr0 ++ collaborator_calls env options
                ++ [GetUpstreamProxy; OptionsUpdate kw; NewProxyServer])
    ∧ MitmProxy.master_options self = kw.
Proof.
  intros Hq Hup Hkw.
  exists {| MitmProxy.options := options;
            MitmProxy.storage :=
              storage_home_dir env (MitmProxy._get_storage_args options);
            MitmProxy.scopes :=
              if truthy (py_get options "disable_capture" (PyBool false))
              then ["$^"%string] else [];
            MitmProxy.request_interceptor := None;
            MitmProxy.response_interceptor := None;
            MitmProxy.master_addons :=
              [DefaultAddons; SendToLogger; InterceptRequestHandler];
            MitmProxy.master_options := kw |}.
  unfold MitmProxy.__init__, MitmProxy.init_collaborators,
    MitmProxy.init_engine, MitmProxy._get_upstream_proxy_args,
    bind, call, lift, ret.
  repeat (rewrite Hq; cbn beta iota zeta).
  rewrite Hup. cbn beta iota. rewrite Hkw. cbn beta iota.
  repeat (rewrite Hq; cbn beta iota zeta).
  split; [|reflexivity].
  unfold collaborator_calls. rewrite <- !app_assoc. reflexivity.
Qed.

Lemma init_Ok_options env host port options tr0 self tr :
  MitmProxy.__init__ env host port options tr0 = (Ok self, tr) →
  ∃ upstream,
    upstream_proxy_args (get_upstream_proxy env options) = Ok upstream
    ∧ explicit_kwargs (MitmProxy.storage self) host port options ∪ upstream
      ##ₘ passthrough options
    ∧ explicit_kwargs (MitmProxy.storage self) host port options ##ₘ upstream
    ∧ MitmProxy.master_options self
      = explicit_kwargs (MitmProxy.storage self) host port options
        ∪ upstream ∪ passthrough options.
Proof.
  intros (upstream & Hup & Hkw & _)%init_Ok_inv.
  exists upstream. split; [done|].
  apply engine_kwargs_Ok in Hkw as [Hd ->]. split; [done|]. split; [|done].
  apply upstream_proxy_args_Ok in Hup as (conf & _ & ->).
  apply explicit_upstream_disjoint.
Qed.

Lemma passthrough_free_empty upstream : passthrough_free ∅ upstream.
Proof. intros k [? Hk]. by rewrite lookup_empty in Hk. Qed.

Lemma passthrough_free_no_prefix options upstream :
  (∀ k0 : string, is_Some (options !! k0) → startswith "mitm_" k0 = false) →
  passthrough_free options upstream.
Proof.
  intros Hno k Hk. apply Hno in Hk. by rewrite startswith_app in Hk.
Qed.

Lemma passthrough_free_singleton (k0 : string) v upstream :
  startswith "mitm_" k0 = false →
  passthrough_free (<[k0 := v]> ∅) upstream.
Proof.
  intros Hk0. apply passthrough_free_no_prefix.
  intros k [<-|Hk]%lookup_insert_is_Some'; [done|].
  rewrite lookup_empty in Hk. by destruct Hk.
Qed.

Lemma init_never_raises_free env host port options tr0 upstream :
  never_raises env →
  upstream_proxy_args (get_upstream_proxy env options) = Ok upstream →
  passthrough_free options upstream →
  ∃ self tr,
    MitmProxy.__init__ env host port options tr0 = (Ok self, tr)
    ∧ MitmProxy.master_options self
      = explicit_kwargs (MitmProxy.storage self) host port options
        ∪ upstream ∪ passthrough options.
Proof.
  intros Hq Hup Hfree.
  pose proof Hup as (conf & _ & ->)%upstream_proxy_args_Ok.
  destruct (init_never_raises env host port options tr0 _ _ Hq Hup
              (engine_kwargs_free _ host port options _ _ Hfree))
    as (self & Hinit & Hkw).
  eexists self, _. split; [exact Hinit|].
  apply init_Ok_options in Hinit as (up' & Hup' & _ & _ & ->).
  rewrite Hup in Hup'. apply Ok_inj in Hup'. rewrite <- Hup'. reflexivity.
Qed.

Lemma quiet_env_never_raises pc : never_raises (quiet_env pc).
Proof. by intros tr ev. Qed.

Lemma X9_constructor_call_order_witness :
  ∃ self tr,
    MitmProxy.__init__ (quiet_env no_upstream) "127.0.0.1" 8080 ∅ []
    = (Ok self, tr)
    ∧ tr = [] ++ collaborator_calls (quiet_env no_upstream) ∅
           ++ [GetUpstreamProxy;
               OptionsUpdate (MitmProxy.master_options self);
               NewProxyServer]
    ∧ registered_addons tr
      = [DefaultAddons; SendToLogger; InterceptRequestHandler].
Proof.
  destruct (init_never_raises_free (quiet_env no_upstream) "127.0.0.1" 8080
              ∅ [] ∅ (quiet_env_never_raises _) eq_refl
              (passthrough_free_empty _))
    as (self & tr & Hinit & _).
  exists self, tr. split; [exact Hinit|].
  destruct (X9_constructor_call_order _ _ _ _ _ _ _ Hinit)
    as (Htr & _ & Hadd & _).
  split; [exact Htr|]. rewrite Hadd.
  apply init_Ok_full in Hinit as (up & kw & _ & _ & _ & Hself).
  rewrite Hself. reflexivity.
Defined.

(** X10: on every instance the constructor returns, the keywords written
    out in the call hold in the engine options with the values of the call:
    [confdir] is the home directory of the storage, [listen_host] and
    [listen_port] are the host and port given, [stream_websockets] is
    [True], and [suppress_connection_errors] is the option of that name,
    [True] when it is missing.  No pass-through option has changed them. *)
Theorem X10_explicit_keywords_on_instance
    (env : Env) (host : string) (port : Z) (options : gmap string pyval)
    (tr0 : trace) (self : MitmProxy.t) (tr : trace) :
  MitmProxy.__init__ env host port options tr0 = (Ok self, tr) →
  let kw := MitmProxy.master_options self in
  kw !! "confdir"%string = Some (PyStr (MitmProxy.storage self))
  ∧ kw !! "listen_host"%string = Some (PyStr host)
  ∧ kw !! "listen_port"%string = Some (PyInt port)
  ∧ kw !! "stream_websockets"%string = Some (PyBool true)
  ∧ kw !! "suppress_connection_errors"%string
    = Some (py_get options "suppress_connection_errors" (PyBool true))
  ∧ options !! "mitm_stream_websockets"%string = None.
Proof.
  intros (upstream & _ & Hd2 & Hd1 & Hkw)%init_Ok_options kw.
  subst kw. rewrite Hkw.
  assert (∀ (k : string) v,
    explicit_kwargs (MitmProxy.storage self) host port options !! k = Some v →
    (explicit_kwargs (MitmProxy.storage self) host port options ∪ upstream
     ∪ passthrough options) !! k = Some v) as Hleft.
  { intros k v Hk. apply lookup_union_Some; [done|]. left.
    apply lookup_union_Some; [done|]. by left. }
  repeat (split; [by apply Hleft|]).
  change "mitm_stream_websockets"%string
    with ("mitm_" ++ "stream_websockets")%string.
  rewrite <- (passthrough_lookup options "stream_websockets").
  apply eq_None_not_Some. intros [y Hy].
  rewrite map_disjoint_spec in Hd2.
  apply (Hd2 "stream_websockets"%string (PyBool true) y); [|done].
  apply lookup_union_Some; [done|]. by left.
Qed.

Lemma X10_explicit_keywords_on_instance_witness :
  ∃ self tr,
    MitmProxy.__init__ (quiet_env no_upstream) "127.0.0.1" 8080
      (<["suppress_connection_errors"%string := PyBool false]> ∅) []
    = (Ok self, tr)
    ∧ MitmProxy.master_options self !! "listen_port"%string
      = Some (PyInt 8080)
    ∧ MitmProxy.master_options self !! "suppress_connection_errors"%string
      = Some (PyBool false).
Proof.
  destruct (init_never_raises_free (quiet_env no_upstream) "127.0.0.1" 8080
              (<["suppress_connection_errors"%string := PyBool false]> ∅) []
              ∅ (quiet_env_never_raises _) eq_refl
              (passthrough_free_singleton "suppress_connection_errors"
                 (PyBool false) ∅ eq_refl))
    as (self & tr & Hinit & _).
  exists self, tr. split; [exact Hinit|].
  destruct (X10_explicit_keywords_on_instance _ _ _ _ _ _ _ Hinit)
    as (_ & _ & Hport & _ & Hsup & _).
  split; [exact Hport|]. rewrite Hsup. vm_compute. reflexivity.
Defined.

(** X11: on every instance the constructor returns, a key of the engine
    options that is neither one of the six keywords nor one of the four
    upstream fields is there only because the caller gave it with the
    [mitm_] prefix, and holds that option's value; the options the
    orchestrator reads itself ([verify_ssl], [disable_capture],
    [request_storage] and the like) do not reach the engine under their
    own names. *)
Theorem X11_only_prefixed_options_reach_engine
    (env : Env) (host : string) (port : Z) (options : gmap string pyval)
    (tr0 : trace) (self : MitmProxy.t) (tr : trace) (k : string) :
  MitmProxy.__init__ env host port options tr0 = (Ok self, tr) →
  k ∉ explicit_keys → k ∉ upstream_keys →
  MitmProxy.master_options self !! k = options !! ("mitm_" ++ k)%string.
Proof.
  intros (upstream & Hup & _ & _ & ->)%init_Ok_options Hex Hnu.
  apply upstream_proxy_args_Ok in Hup as (conf & _ & ->).
  rewrite lookup_union_r; [apply passthrough_lookup|].
  apply lookup_union_None. split.
  - apply eq_None_not_Some. by rewrite explicit_kwargs_keys.
  - apply eq_None_not_Some. by intros ?%conf_args_keys.
Qed.

Lemma X11_only_prefixed_options_reach_engine_witness :
  ∃ self tr,
    MitmProxy.__init__ (quiet_env no_upstream) "127.0.0.1" 8080
      (<["verify_ssl"%string := PyBool false]> ∅) [] = (Ok self, tr)
    ∧ MitmProxy.master_options self !! "verify_ssl"%string = None.
Proof.
  destruct (init_never_raises_free (quiet_env no_upstream) "127.0.0.1" 8080
              (<["verify_ssl"%string := PyBool false]> ∅) []
              ∅ (quiet_env_never_raises _) eq_refl
              (passthrough_free_singleton "verify_ssl" (PyBool false) ∅
                 eq_refl))
    as (self & tr & Hinit & _).
  exists self, tr. split; [exact Hinit|].
  rewrite (X11_only_prefixed_options_reach_engine _ _ _ _ _ _ _
             "verify_ssl"%string Hinit).
  - vm_compute. reflexivity.
  - unfold explicit_keys. rewrite !elem_of_cons, elem_of_nil.
    intuition discriminate.
  - unfold upstream_keys. rewrite !elem_of_cons, elem_of_nil.
    intuition discriminate.
Defined.

(** X12: with collaborators that do not raise, the constructor returns an
    instance whenever the resolver returns fields and no pass-through
    option repeats a keyword or one of these fields; its engine options
    are then the keywords of the call, the upstream fields and the
    pass-through options together. *)
Theorem X12_construction_succeeds_with_quiet_collaborators
    (env : Env) (host : string) (port : Z) (options : gmap string pyval)
    (tr0 : trace) (upstream : gmap string pyval) :
  never_raises env →
  upstream_proxy_args (get_upstream_proxy env options) = Ok upstream →
  passthrough_free options upstream →
  ∃ self tr,
    MitmProxy.__init__ env host port options tr0 = (Ok self, tr)
    ∧ MitmProxy.master_options self
      = explicit_kwargs (MitmProxy.storage self) host port options
        ∪ upstream ∪ passthrough options.
Proof. apply init_never_raises_free. Qed.

Lemma X12_construction_succeeds_with_quiet_collaborators_witness :
  ∃ self tr,
    MitmProxy.__init__
      (quiet_env (https_only (mk_conf "https" "bob" "pw" "proxy.local:8080")
                    PyNone PyNone))
      "127.0.0.1" 8080 ∅ [] = (Ok self, tr)
    ∧ MitmProxy.master_options self !! "mode"%string
      = Some (PyStr "upstream:https://proxy.local:8080").
Proof.
  destruct (X12_construction_succeeds_with_quiet_collaborators
              (quiet_env (https_only
                            (mk_conf "https" "bob" "pw" "proxy.local:8080")
                            PyNone PyNone))
              "127.0.0.1" 8080 ∅ []
              (conf_args (https_only
                            (mk_conf "https" "bob" "pw" "proxy.local:8080")
                            PyNone PyNone)
                 (Some (mk_conf "https" "bob" "pw" "proxy.local:8080"))))
    as (self & tr & Hinit & Hkw);
    [apply quiet_env_never_raises|reflexivity|apply passthrough_free_empty|].
  exists self, tr. split; [exact Hinit|].
  rewrite Hkw. vm_compute. reflexivity.
Defined.

Lemma bind_assoc {A B C} (m : M A) (k1 : A → M B) (k2 : B → M C) tr :
  bind (bind m k1) k2 tr = bind m (λ a, bind (k1 a) k2) tr.
Proof. unfold bind. by destruct (m tr) as [[a|e] tr1]. Qed.

Lemma bind_call_first {B} env ev (k : unit → M B) tr :
  emits (λ _, True) (k tt) →
  ∃ rest, (bind (call env ev) k tr).2 = tr ++ ev :: rest.
Proof.
  intros Hk. unfold bind, call. destruct (raises env tr ev).
  - by exists [].
  - destruct (Hk (tr ++ [ev])) as (rest & -> & _).
    exists rest. by rewrite <- app_assoc.
Qed.

(** X13: whatever the options and the collaborators, the first thing the
    constructor does is call [storage.create], in memory exactly when
    [request_storage] is the string ['memory'], with [base_dir] and
    [maxsize] as the options [request_storage_base_dir] and
    [request_storage_max_size] give them ([None] when missing); and when
    that call raises, the exception reaches the caller with nothing else
    called. *)
Theorem X13_storage_created_first
    (env : Env) (host : string) (port : Z) (options : gmap string pyval)
    (tr0 : trace) :
  (∃ rest,
     (MitmProxy.__init__ env host port options tr0).2
     = tr0 ++ StorageCreate (MitmProxy._get_storage_args options) :: rest)
  ∧ (memory_only (MitmProxy._get_storage_args options) = true
     ↔ options !! "request_storage"%string = Some (PyStr "memory"))
  ∧ base_dir (MitmProxy._get_storage_args options)
    = default PyNone (options !! "request_storage_base_dir"%string)
  ∧ maxsize (MitmProxy._get_storage_args options)
    = default PyNone (options !! "request_storage_max_size"%string)
  ∧ (∀ e,
       raises env tr0 (StorageCreate (MitmProxy._get_storage_args options))
       = Some e →
       MitmProxy.__init__ env host port options tr0
       = (Err e,
          tr0 ++ [StorageCreate (MitmProxy._get_storage_args options)])).
Proof.
  split; [|split; [|split; [done|split; [done|]]]].
  - unfold MitmProxy.__init__, MitmProxy.init_collaborators.
    rewrite bind_assoc. apply bind_call_first.
    unfold MitmProxy.init_engine, MitmProxy._get_upstream_proxy_args.
    repeat first
      [ apply emits_ret | apply emits_lift | apply emits_call; done
      | apply emits_bind; [|intros ?] ].
  - simpl. rewrite bool_decide_eq_true. unfold py_get.
    destruct (options !! "request_storage"%string) as [v|]; simpl.
    + split; [by intros ->|by intros [= ->]].
    + split; intros ?; discriminate.
  - intros e He.
    unfold MitmProxy.__init__, MitmProxy.init_collaborators.
    rewrite bind_assoc. unfold bind at 1. unfold call. by rewrite He.
Qed.

(** X14: [shutdown()] always asks the master to shut down first.  When
    that call raises, the exception reaches the caller and [cleanup()] is
    not called; when it returns, [cleanup()] is called next, once. *)
Theorem X14_shutdown_skips_cleanup_when_master_raises
    (env : Env) (self : MitmProxy.t) (tr0 : trace) :
  (∀ e, raises env tr0 MasterShutdown = Some e →
        MitmProxy.shutdown env self tr0 = (Err e, tr0 ++ [MasterShutdown]))
  ∧ (raises env tr0 MasterShutdown = None →
     (MitmProxy.shutdown env self tr0).2
     = tr0 ++ [MasterShutdown; StorageCleanup])
  ∧ cleanup_calls (MitmProxy.shutdown env self tr0).2
    = (cleanup_calls tr0
       + match raises env tr0 MasterShutdown with
         | Some _ => 0
         | None => 1
         end)%nat.
Proof.
  unfold MitmProxy.shutdown, bind, call.
  destruct (raises env tr0 MasterShutdown) as [e|] eqn:Hm.
  - split; [by intros ? [= <-]|]. split; [done|].
    cbn [snd]. rewrite cleanup_calls_app. simpl. lia.
  - split; [done|].
    cbn beta iota.
    destruct (raises env (tr0 ++ [MasterShutdown]) StorageCleanup);
      cbn [snd]; rewrite <- app_assoc;
      (split; [by intros _|]); rewrite cleanup_calls_app; simpl; lia.
Qed.

Lemma X14_shutdown_skips_cleanup_when_master_raises_witness :
  MitmProxy.shutdown shutdown_fail_env plain_instance []
  = (Err (Raised "RuntimeError"), [MasterShutdown]).
Proof.
  exact (proj1 (X14_shutdown_skips_cleanup_when_master_raises
                  shutdown_fail_env plain_instance [])
           (Raised "RuntimeError") eq_refl).
Defined.



(** X16: [disable_capture] is read by its truth value, not compared with
    [True]: on an instance the constructor returned, any non-empty string
    in that option, the string ['false'] included, and any non-zero number
    leave the single pattern in [scopes], while [None], [0] and the empty
    string leave [scopes] empty. *)
Theorem X16_disable_capture_by_truth_value
    (env : Env) (host : string) (port : Z) (options : gmap string pyval)
    (tr0 : trace) (self : MitmProxy.t) (tr : trace) :
  MitmProxy.__init__ env host port options tr0 = (Ok self, tr) →
  (∀ s : string, s ≠ ""%string →
     options !! "disable_capture"%string = Some (PyStr s) →
     MitmProxy.scopes self = ["$^"%string])
  ∧ (∀ n : Z, n ≠ 0%Z →
       options !! "disable_capture"%string = Some (PyInt n) →
       MitmProxy.scopes self = ["$^"%string])
  ∧ (options !! "disable_capture"%string = Some PyNone
     ∨ options !! "disable_capture"%string = Some (PyInt 0)
     ∨ options !! "disable_capture"%string = Some (PyStr "") →
     MitmProxy.scopes self = []).
Proof.
  intros (_ & _ & _ & ->)%init_Ok_inv. unfold py_get.
  split; [|split].
  - intros s Hs ->. simpl. by destruct (String.eqb_spec s "").
  - intros n Hn ->. simpl. by destruct (Z.eqb_spec n 0).
  - by intros [-> | [-> | ->]].
Qed.

Lemma X16_disable_capture_by_truth_value_witness :
  ∃ self tr,
    MitmProxy.__init__ (quiet_env no_upstream) "127.0.0.1" 8080
      (<["disable_capture"%string := PyStr "false"]> ∅) [] = (Ok self, tr)
    ∧ MitmProxy.scopes self = ["$^"%string].
Proof.
  destruct (init_never_raises_free (quiet_env no_upstream) "127.0.0.1" 8080
              (<["disable_capture"%string := PyStr "false"]> ∅) []
              ∅ (quiet_env_never_raises _) eq_refl
              (passthrough_free_singleton "disable_capture" (PyStr "false")
                 ∅ eq_refl))
    as (self & tr & Hinit & _).
  exists self, tr. split; [exact Hinit|].
  destruct (X16_disable_capture_by_truth_value _ _ _ _ _ _ _ Hinit)
    as (Hstr & _).
  apply (Hstr "false"%string); [discriminate|].
  vm_compute. reflexivity.
Defined.
